(** * Fraud / anomaly detection service: feature, scoring and reason engines

    A shallow embedding of [app/features.py], [app/scoring.py],
    [app/reasons.py] and the ingestion/scoring handlers of [app/main.py].

    Conventions of the embedding.
    - A Python [float] is an exact rational ([Q]): rounding, infinities and
      NaN are outside the model.  Every division of the source is guarded by
      a strict positivity test, so [Qdiv]'s value at zero is never used.
      The functions of [math] are those of a [MathModule], of which nothing
      is assumed: its [sin] and [cos] stand for the rounded ones, so that the
      argument of [asin] may leave [[-1, 1]] as it does in Python, where
      [asin], [sqrt] and [log] then raise [ValueError].
    - A naive [datetime] is the number of microseconds since [datetime.min]
      (0001-01-01T00:00:00, a Monday); a [timedelta] is a number of
      microseconds.  Subtracting a [timedelta] below [datetime.min] raises
      [OverflowError], as in Python.
    - The database is the list of rows of each table in insertion order; a
      query [.filter(p)] is [filter p], [.all()] the rows, [.first()] the
      head.  Every [db.add] of the source is followed by [db.commit()], so a
      mutation of the lists is a committed one.
    - Exceptions are values of [exn]; a handler returns the database it
      leaves behind together with its result. *)

From Stdlib Require Import ZArith QArith Qminmax String DecimalString Bool Lia.
From Stdlib Require Import List Permutation Sorted.
Import ListNotations.

Local Open Scope Z_scope.

(** ** Exceptions and results *)

Inductive exn : Type :=
| HTTPException (status_code : Z) (detail : string)
| RuntimeError (message : string)
| OverflowError
| ValueError
| AttributeError
| TypeError
| FileNotFoundError.

Inductive result (A : Type) : Type :=
| Ok (a : A)
| Raise (e : exn).

Arguments Ok {A} a.
Arguments Raise {A} e.

Definition bind {A B : Type} (r : result A) (k : A -> result B) : result B :=
  match r with
  | Ok a => k a
  | Raise e => Raise e
  end.

Notation "x <- c ;; k" := (bind c (fun x => k))
  (at level 61, c at next level, right associativity).

(** ** Python numbers *)

(** [a <= b] and [a < b] on floats. *)
Definition fle (a b : Q) : bool := Qle_bool a b.
Definition flt (a b : Q) : bool := negb (Qle_bool b a).

(** [float(n)] of an integer. *)
Definition float_of_int (n : Z) : Q := inject_Z n.

(** The functions of Python's [math] module that [features.py] imports:
    [radians], [sin] and [cos], and the values of [asin], [sqrt] and [log]
    on their domains. *)
Class MathModule : Type := {
  math_radians : Q -> Q;
  math_sin : Q -> Q;
  math_cos : Q -> Q;
  math_asin : Q -> Q;
  math_sqrt : Q -> Q;
  math_log : Q -> Q
}.

(** [math.sqrt], [math.asin] and [math.log]: outside the domain they raise
    [ValueError] ("math domain error"). *)
Definition sqrt `{MathModule} (x : Q) : result Q :=
  if flt x 0 then Raise ValueError else Ok (math_sqrt x).

Definition asin `{MathModule} (x : Q) : result Q :=
  if flt x (-1) || flt 1 x then Raise ValueError else Ok (math_asin x).

Definition log `{MathModule} (x : Q) : result Q :=
  if fle x 0 then Raise ValueError else Ok (math_log x).

(** ** datetime *)

Definition datetime : Type := Z.

Definition timedelta (hours minutes : Z) : Z := (hours * 3600 + minutes * 60) * 1000000.

(** [t - delta]: out of range below [datetime.min]. *)
Definition datetime_sub (t delta : Z) : result datetime :=
  if t - delta <? 0 then Raise OverflowError else Ok (t - delta).

(** [(a - b).total_seconds()]. *)
Definition total_seconds (a b : datetime) : Q := Qmake (a - b) 1000000.

Definition datetime_hour (t : datetime) : Z := (t / 3600000000) mod 24.

(** [weekday()]: Monday is 0; day 0 of the calendar is a Monday. *)
Definition datetime_weekday (t : datetime) : Z := (t / 86400000000) mod 7.

(** ** models.py *)

Record Event : Type := {
  id : Z;
  event_id : string;
  user_id : string;
  merchant_id : string;
  amount : Q;
  currency : string;
  timestamp : datetime;
  lat : Q;
  lon : Q;
  device_id : string;
  ip : string;
  channel : string
}.

Record FeatureRow : Type := {
  fr_id : Z;
  event_id_fk : Z;
  log_amount : Q;
  tx_count_5m : Z;
  tx_count_1h : Z;
  spend_1h : Q;
  is_new_merchant : Z;
  is_new_device : Z;
  is_new_ip : Z;
  distance_from_last_km : Q;
  speed_kmph : Q;
  hour_of_day : Z;
  day_of_week : Z
}.

(** ** features.py *)

Record ComputedFeatures : Type := {
  cf_log_amount : Q;
  cf_tx_count_5m : Z;
  cf_tx_count_1h : Z;
  cf_spend_1h : Q;
  cf_is_new_merchant : Z;
  cf_is_new_device : Z;
  cf_is_new_ip : Z;
  cf_distance_from_last_km : Q;
  cf_speed_kmph : Q;
  cf_hour_of_day : Z;
  cf_day_of_week : Z
}.

Definition haversine_km `{MathModule} (lat1 lon1 lat2 lon2 : Q) : result Q :=
  let r := 6371%Q in
  let dlat := math_radians (lat2 - lat1)%Q in
  let dlon := math_radians (lon2 - lon1)%Q in
  let a := (math_sin (dlat / 2) ^ 2
            + math_cos (math_radians lat1) * math_cos (math_radians lat2)
              * math_sin (dlon / 2) ^ 2)%Q in
  root <- sqrt a ;;
  angle <- asin root ;;
  let c := (2 * angle)%Q in
  Ok (r * c)%Q.

(** Stable insertion sort: [x] goes in front of the first [y] with
    [le x y]; rows that compare equal keep their order. *)
Fixpoint insert_sorted {A : Type} (le : A -> A -> bool) (x : A) (l : list A) : list A :=
  match l with
  | [] => [x]
  | y :: l' => if le x y then x :: l else y :: insert_sorted le x l'
  end.

Definition sort_by {A : Type} (le : A -> A -> bool) (l : list A) : list A :=
  fold_right (insert_sorted le) [] l.

(** [.order_by(Event.timestamp.desc())].  Rows of equal timestamp come
    last inserted first: the engine answers the query by walking an index on
    the timestamp backwards, and an index keeps rows of equal key in
    insertion order. *)
Definition order_by_timestamp_desc (l : list Event) : list Event :=
  sort_by (fun a b => timestamp b <=? timestamp a) (rev l).

(** The filters of the queries. *)
Definition by_user (u : string) (e : Event) : bool := (user_id e =? u)%string.
Definition ts_ge (start : datetime) (e : Event) : bool := start <=? timestamp e.
Definition ts_lt (t : datetime) (e : Event) : bool := timestamp e <? t.
Definition by_merchant (m : string) (e : Event) : bool := (merchant_id e =? m)%string.
Definition by_device (d : string) (e : Event) : bool := (device_id e =? d)%string.
Definition by_ip (a : string) (e : Event) : bool := (ip e =? a)%string.

Definition is_None {A : Type} (o : option A) : bool :=
  match o with None => true | Some _ => false end.

Definition compute_features `{MathModule} (db : list Event) (incoming : Event)
  : result ComputedFeatures :=
  let t := timestamp incoming in
  window_5m_start <- datetime_sub t (timedelta 0 5) ;;
  window_1h_start <- datetime_sub t (timedelta 1 0) ;;
  let recent_5m :=
    filter (ts_lt t) (filter (ts_ge window_5m_start) (filter (by_user (user_id incoming)) db)) in
  let recent_1h :=
    filter (ts_lt t) (filter (ts_ge window_1h_start) (filter (by_user (user_id incoming)) db)) in
  let tx_count_5m := Z.of_nat (length recent_5m) in
  let tx_count_1h := Z.of_nat (length recent_1h) in
  let spend_1h := fold_left (fun acc e => (acc + amount e)%Q) recent_1h 0%Q in
  let last_event :=
    hd_error (order_by_timestamp_desc
                (filter (ts_lt t) (filter (by_user (user_id incoming)) db))) in
  let is_new_merchant :=
    if is_None (hd_error (filter (ts_lt t)
                  (filter (by_merchant (merchant_id incoming))
                     (filter (by_user (user_id incoming)) db))))
    then 1 else 0 in
  let is_new_device :=
    if is_None (hd_error (filter (ts_lt t)
                  (filter (by_device (device_id incoming))
                     (filter (by_user (user_id incoming)) db))))
    then 1 else 0 in
  let is_new_ip :=
    if is_None (hd_error (filter (ts_lt t)
                  (filter (by_ip (ip incoming))
                     (filter (by_user (user_id incoming)) db))))
    then 1 else 0 in
  kinematics <-
    match last_event with
    | None => Ok (0%Q, 0%Q)
    | Some last =>
        d <- haversine_km (lat last) (lon last) (lat incoming) (lon incoming) ;;
        let dt_seconds := total_seconds (timestamp incoming) (timestamp last) in
        Ok (if flt 0 dt_seconds then (d, (d / (dt_seconds / 3600))%Q) else (d, 0%Q))
    end ;;
  let '(distance_from_last_km, speed_kmph) := kinematics in
  let amt := amount incoming in
  log_amount <- (if flt 0 amt then log amt else Ok 0%Q) ;;
  Ok {| cf_log_amount := log_amount;
        cf_tx_count_5m := tx_count_5m;
        cf_tx_count_1h := tx_count_1h;
        cf_spend_1h := spend_1h;
        cf_is_new_merchant := is_new_merchant;
        cf_is_new_device := is_new_device;
        cf_is_new_ip := is_new_ip;
        cf_distance_from_last_km := distance_from_last_km;
        cf_speed_kmph := speed_kmph;
        cf_hour_of_day := datetime_hour (timestamp incoming);
        cf_day_of_week := datetime_weekday (timestamp incoming) |}.

(** ** reasons.py *)

(** The [detail] texts: a fixed sentence, or one of the f-string templates
    with the values it formats. *)
Inductive Detail : Type :=
| Text (s : string)
| TravelSpeed (speed_kmph : Q)
| TransactionsIn5m (n : Z)
| SpendLastHour (spend : Q)
| AmountOverMedian (amount median : Q).

Record Reason : Type := {
  reason : string;
  detail : Detail;
  severity : Z
}.

(** [reasons.append(r)] under its [if]. *)
Definition append_if (c : bool) (r : Reason) (reasons : list Reason) : list Reason :=
  if c then reasons ++ [r] else reasons.

(** The query of lines 27-35: the amounts of the user's 30 most recent
    events strictly before [ev]. *)
Definition prior_amounts (db : list Event) (ev : Event) : list Q :=
  map amount
    (firstn 30
       (order_by_timestamp_desc
          (filter (ts_lt (timestamp ev)) (filter (by_user (user_id ev)) db)))).

(** [vals_sorted[len(vals_sorted) // 2]]. *)
Definition median_of (vals : list Q) : Q :=
  let vals_sorted := sort_by fle vals in
  nth (length vals_sorted / 2) vals_sorted 0%Q.

(** Lines 36-43: the amount_spike rule. *)
Definition amount_spike_fires (db : list Event) (ev : Event) : bool :=
  let prior := prior_amounts db ev in
  if (10 <=? length prior)%nat
  then flt 0 (median_of prior) && fle (4 * median_of prior)%Q (amount ev)
  else false.

(** Lines 7-43 of [build_reasons]: the list [reasons] before it is sorted. *)
Definition fired_reasons (db : list Event) (ev : Event) (fr : FeatureRow) : list Reason :=
  let reasons := [] in
  let reasons :=
    append_if (is_new_device fr =? 1)
      {| reason := "new_device"; detail := Text "Device not seen before for this user";
         severity := 85 |} reasons in
  let reasons :=
    append_if (is_new_ip fr =? 1)
      {| reason := "new_ip"; detail := Text "IP address not seen before for this user";
         severity := 80 |} reasons in
  let reasons :=
    append_if (is_new_merchant fr =? 1)
      {| reason := "new_merchant"; detail := Text "Merchant not seen before for this user";
         severity := 65 |} reasons in
  let reasons :=
    append_if (fle 900 (speed_kmph fr))
      {| reason := "impossible_travel"; detail := TravelSpeed (speed_kmph fr);
         severity := 95 |} reasons in
  let reasons :=
    append_if (3 <=? tx_count_5m fr)
      {| reason := "high_velocity_5m"; detail := TransactionsIn5m (tx_count_5m fr);
         severity := 90 |} reasons in
  let reasons :=
    append_if (fle 800 (spend_1h fr))
      {| reason := "high_spend_1h"; detail := SpendLastHour (spend_1h fr);
         severity := 70 |} reasons in
  let reasons :=
    append_if (amount_spike_fires db ev)
      {| reason := "amount_spike";
         detail := AmountOverMedian (amount ev) (median_of (prior_amounts db ev));
         severity := 75 |} reasons in
  reasons.

(** [sorted(reasons, key=severity, reverse=True)]: stable, so reasons of
    equal severity keep the order in which they were appended. *)
Definition sorted_by_severity_desc (reasons : list Reason) : list Reason :=
  sort_by (fun a b => severity b <=? severity a) reasons.

Definition build_reasons (db : list Event) (ev : Event) (fr : FeatureRow) : list Reason :=
  let reasons_sorted := sorted_by_severity_desc (fired_reasons db ev fr) in
  firstn 3 reasons_sorted.

(** ** scoring.py *)

(** The two scikit-learn objects, by the one method the service calls on
    each (one sample in, one sample out).  The methods are taken on the
    vectors they accept: the [ValueError] that scikit-learn raises for a
    vector of another width than the one it was fitted on, or for a value
    that is not finite, is not represented. *)
Record IsolationForest : Type := { score_samples : list Q -> Q }.
Record StandardScaler : Type := { transform : list Q -> list Q }.

(** What [load_artifacts] reads of [threshold.json]. *)
Record ThresholdFile : Type := {
  tf_threshold : Q;
  tf_feature_columns : list string
}.

(** The three files of [artifacts/]; [None] when a path does not exist. *)
Record ArtifactDir : Type := {
  model_joblib : option IsolationForest;
  scaler_joblib : option StandardScaler;
  threshold_json : option ThresholdFile
}.

(** The module-level dictionary [_cached]. *)
Record Cache : Type := {
  c_model : option IsolationForest;
  c_scaler : option StandardScaler;
  c_threshold : option Q;
  c_feature_columns : option (list string)
}.

Definition empty_cache : Cache :=
  {| c_model := None; c_scaler := None; c_threshold := None; c_feature_columns := None |}.

Definition artifacts_missing : exn :=
  RuntimeError "Model artifacts missing. Run: python training\train.py".

(** [load_artifacts()]: the cache it leaves, or the exception. *)
Definition load_artifacts (dir : ArtifactDir) (cached : Cache) : result Cache :=
  if negb (is_None (c_model cached)) then Ok cached
  else
    match model_joblib dir, scaler_joblib dir, threshold_json dir with
    | Some m, Some s, Some t =>
        Ok {| c_model := Some m;
              c_scaler := Some s;
              c_threshold := Some (tf_threshold t);
              c_feature_columns := Some (tf_feature_columns t) |}
    | _, _, _ => Raise artifacts_missing
    end.

(** A stateful call on the cache: the cache it leaves and its result. *)
Definition feature_columns (dir : ArtifactDir) (cached : Cache)
  : Cache * result (list string) :=
  match load_artifacts dir cached with
  | Raise e => (cached, Raise e)
  | Ok cached' =>
      (cached', match c_feature_columns cached' with
                | Some cols => Ok cols
                | None => Raise TypeError
                end)
  end.

(** Lines 46-53: the risk percentage of a raw score. *)
Definition risk_of (anomaly_score threshold : Q) : Q :=
  if fle threshold 0 then 0%Q
  else
    let risk := (100 * anomaly_score / threshold)%Q in
    let risk := if flt risk 0 then 0%Q else risk in
    let risk := if flt 100 risk then 100%Q else risk in
    risk.

Definition score_feature_vector (dir : ArtifactDir) (cached : Cache) (feature_values : list Q)
  : Cache * result (Q * Q * bool) :=
  match load_artifacts dir cached with
  | Raise e => (cached, Raise e)
  | Ok cached' =>
      (cached',
       match c_scaler cached' with
       | None => Raise AttributeError
       | Some scaler =>
           let Xs := transform scaler feature_values in
           match c_model cached' with
           | None => Raise AttributeError
           | Some model =>
               let anomaly_score := (- score_samples model Xs)%Q in
               match c_threshold cached' with
               | None => Raise TypeError
               | Some threshold =>
                   let flagged := fle threshold anomaly_score in
                   Ok (anomaly_score, risk_of anomaly_score threshold, flagged)
               end
           end
       end)
  end.


(** ** main.py *)

Record ScoreRow : Type := {
  sr_id : Z;
  sr_event_id_fk : Z;
  anomaly_score : Q;
  risk_score : Q;
  flagged : Z;
  reasons_json : list Reason;
  created_at : datetime
}.

(** The tables [events], [features] and [scores], rows in insertion order. *)
Record Database : Type := {
  events : list Event;
  features : list FeatureRow;
  scores : list ScoreRow
}.

Definition empty_db : Database := {| events := []; features := []; scores := [] |}.

Record IngestEventRequest : Type := {
  req_event_id : string;
  req_user_id : string;
  req_merchant_id : string;
  req_amount : Q;
  req_currency : string;
  req_timestamp : string;
  req_lat : Q;
  req_lon : Q;
  req_device_id : string;
  req_ip : string;
  req_channel : string
}.

Record ScoreResponse : Type := {
  resp_event_id : string;
  resp_anomaly_score : Q;
  resp_risk_score : Q;
  resp_flagged : bool;
  resp_reasons : list Reason
}.

(** Lines 130-134 of [upsert_event_and_features]: [isoparse] followed by the
    conversion of an aware timestamp to naive local time; [None] when either
    raises. *)
Class Dateutil : Type := { parse_timestamp : string -> option datetime }.

(** The key an autoincrement column gives the next row. *)
Definition next_id (ids : list Z) : Z := 1 + fold_right Z.max 0 ids.

(** [db.query(Event).filter(Event.event_id == x).first()]. *)
Definition find_event (db : Database) (x : string) : option Event :=
  hd_error (filter (fun e => (event_id e =? x)%string) (events db)).

(** [db.query(FeatureRow).filter(FeatureRow.event_id_fk == k).first()]. *)
Definition find_features (db : Database) (k : Z) : option FeatureRow :=
  hd_error (filter (fun fr => event_id_fk fr =? k) (features db)).

(** [db.query(ScoreRow).filter(ScoreRow.event_id_fk == k).first()]. *)
Definition find_score (db : Database) (k : Z) : option ScoreRow :=
  hd_error (filter (fun sr => sr_event_id_fk sr =? k) (scores db)).

(** [db.add(ev); db.commit(); db.refresh(ev)]. *)
Definition add_event (db : Database) (ev : Z -> Event) : Database * Event :=
  let ev := ev (next_id (map id (events db))) in
  ({| events := events db ++ [ev]; features := features db; scores := scores db |}, ev).

(** [db.add(fr); db.commit(); db.refresh(fr)]. *)
Definition add_features (db : Database) (fr : Z -> FeatureRow) : Database * FeatureRow :=
  let fr := fr (next_id (map fr_id (features db))) in
  ({| events := events db; features := features db ++ [fr]; scores := scores db |}, fr).

(** [Event(event_id=req.event_id, ..., timestamp=ts, ...)], before the
    database gives it its key. *)
Definition new_event (req : IngestEventRequest) (ts : datetime) (k : Z) : Event :=
  {| id := k;
     event_id := req_event_id req;
     user_id := req_user_id req;
     merchant_id := req_merchant_id req;
     amount := req_amount req;
     currency := req_currency req;
     timestamp := ts;
     lat := req_lat req;
     lon := req_lon req;
     device_id := req_device_id req;
     ip := req_ip req;
     channel := req_channel req |}.

(** [FeatureRow(event_id_fk=ev.id, log_amount=feats.log_amount, ...)]. *)
Definition new_feature_row (ev : Event) (feats : ComputedFeatures) (k : Z) : FeatureRow :=
  {| fr_id := k;
     event_id_fk := id ev;
     log_amount := cf_log_amount feats;
     tx_count_5m := cf_tx_count_5m feats;
     tx_count_1h := cf_tx_count_1h feats;
     spend_1h := cf_spend_1h feats;
     is_new_merchant := cf_is_new_merchant feats;
     is_new_device := cf_is_new_device feats;
     is_new_ip := cf_is_new_ip feats;
     distance_from_last_km := cf_distance_from_last_km feats;
     speed_kmph := cf_speed_kmph feats;
     hour_of_day := cf_hour_of_day feats;
     day_of_week := cf_day_of_week feats |}.

Definition upsert_event_and_features `{MathModule} `{Dateutil}
  (db : Database) (req : IngestEventRequest) : Database * result (Event * FeatureRow) :=
  match find_event db (req_event_id req) with
  | Some existing =>
      match find_features db (id existing) with
      | None => (db, Raise (HTTPException 500 "event exists but features missing"))
      | Some fr => (db, Ok (existing, fr))
      end
  | None =>
      match parse_timestamp (req_timestamp req) with
      | None => (db, Raise (HTTPException 400 "invalid timestamp format"))
      | Some ts =>
          let '(db, ev) := add_event db (new_event req ts) in
          match compute_features (events db) ev with
          | Raise e => (db, Raise e)
          | Ok feats =>
              let '(db, fr) := add_features db (new_feature_row ev feats) in
              (db, Ok (ev, fr))
          end
      end
  end.

(** Assignment to the columns of the first row that satisfies [p]. *)
Fixpoint update_first {A : Type} (p : A -> bool) (f : A -> A) (l : list A) : list A :=
  match l with
  | [] => []
  | x :: l' => if p x then f x :: l' else x :: update_first p f l'
  end.

(** [utcnow] is the value [datetime.utcnow()] returns during the call. *)
Definition upsert_score_row (db : Database) (ev : Event)
  (anomaly_score risk_score : Q) (flagged : bool) (reasons : list Reason)
  (utcnow : datetime) : Database :=
  let reasons_json := reasons in
  match find_score db (id ev) with
  | None =>
      let sr := {| sr_id := next_id (map sr_id (scores db));
                   sr_event_id_fk := id ev;
                   anomaly_score := anomaly_score;
                   risk_score := risk_score;
                   flagged := if flagged then 1 else 0;
                   reasons_json := reasons_json;
                   created_at := utcnow |} in
      {| events := events db; features := features db; scores := scores db ++ [sr] |}
  | Some _ =>
      {| events := events db;
         features := features db;
         scores :=
           update_first (fun sr => sr_event_id_fk sr =? id ev)
             (fun existing_score =>
                {| sr_id := sr_id existing_score;
                   sr_event_id_fk := sr_event_id_fk existing_score;
                   anomaly_score := anomaly_score;
                   risk_score := risk_score;
                   flagged := if flagged then 1 else 0;
                   reasons_json := reasons_json;
                   created_at := utcnow |})
             (scores db) |}
  end.

(** [getattr(fr, c)] followed by [float(...)], for the numeric columns of a
    feature row; any other name raises. *)
Definition getattr_float (fr : FeatureRow) (c : string) : result Q :=
  if (c =? "log_amount")%string then Ok (log_amount fr)
  else if (c =? "tx_count_5m")%string then Ok (float_of_int (tx_count_5m fr))
  else if (c =? "tx_count_1h")%string then Ok (float_of_int (tx_count_1h fr))
  else if (c =? "spend_1h")%string then Ok (spend_1h fr)
  else if (c =? "is_new_merchant")%string then Ok (float_of_int (is_new_merchant fr))
  else if (c =? "is_new_device")%string then Ok (float_of_int (is_new_device fr))
  else if (c =? "is_new_ip")%string then Ok (float_of_int (is_new_ip fr))
  else if (c =? "distance_from_last_km")%string then Ok (distance_from_last_km fr)
  else if (c =? "speed_kmph")%string then Ok (speed_kmph fr)
  else if (c =? "hour_of_day")%string then Ok (float_of_int (hour_of_day fr))
  else if (c =? "day_of_week")%string then Ok (float_of_int (day_of_week fr))
  else if (c =? "id")%string then Ok (float_of_int (fr_id fr))
  else if (c =? "event_id_fk")%string then Ok (float_of_int (event_id_fk fr))
  else Raise AttributeError.

(** [[float(getattr(fr, c)) for c in cols]]. *)
Fixpoint feature_values_of (fr : FeatureRow) (cols : list string) : result (list Q) :=
  match cols with
  | [] => Ok []
  | c :: cols' =>
      v <- getattr_float fr c ;;
      vs <- feature_values_of fr cols' ;;
      Ok (v :: vs)
  end.

(** The state a request handler runs against: the database, the artifact
    files and the module-level cache. *)
Record App : Type := {
  app_db : Database;
  app_artifacts : ArtifactDir;
  app_cached : Cache
}.

Definition with_db (app : App) (db : Database) : App :=
  {| app_db := db; app_artifacts := app_artifacts app; app_cached := app_cached app |}.

Definition with_cached (app : App) (cached : Cache) : App :=
  {| app_db := app_db app; app_artifacts := app_artifacts app; app_cached := cached |}.

(** [POST /ingest]: the identifiers of the stored rows. *)
Definition ingest `{MathModule} `{Dateutil} (app : App) (req : IngestEventRequest)
  : App * result (Z * Z) :=
  match upsert_event_and_features (app_db app) req with
  | (db, Raise e) => (with_db app db, Raise e)
  | (db, Ok (ev, fr)) => (with_db app db, Ok (id ev, fr_id fr))
  end.

(** Lines 268-281, shared by [score] and [score_by_event_id]: the handler
    from the point where [cols] is bound. *)
Definition score_with_columns (app : App) (ev : Event) (fr : FeatureRow)
  (cols : list string) (utcnow : datetime) : App * result ScoreResponse :=
  match feature_values_of fr cols with
  | Raise e => (app, Raise e)
  | Ok feature_values =>
      match score_feature_vector (app_artifacts app) (app_cached app) feature_values with
      | (cached, Raise e) => (with_cached app cached, Raise e)
      | (cached, Ok (anomaly_score, risk_score, flagged)) =>
          let app := with_cached app cached in
          let reasons := build_reasons (events (app_db app)) ev fr in
          let db := upsert_score_row (app_db app) ev anomaly_score risk_score flagged
                      reasons utcnow in
          (with_db app db,
           Ok {| resp_event_id := event_id ev;
                 resp_anomaly_score := anomaly_score;
                 resp_risk_score := risk_score;
                 resp_flagged := flagged;
                 resp_reasons := reasons |})
      end
  end.

(** Lines 267-281: [cols = feature_columns()] and the rest. *)
Definition score_stored (app : App) (ev : Event) (fr : FeatureRow) (utcnow : datetime)
  : App * result ScoreResponse :=
  match feature_columns (app_artifacts app) (app_cached app) with
  | (cached, Raise e) => (with_cached app cached, Raise e)
  | (cached, Ok cols) => score_with_columns (with_cached app cached) ev fr cols utcnow
  end.

(** [POST /score]. *)
Definition score `{MathModule} `{Dateutil} (app : App) (req : IngestEventRequest)
  (utcnow : datetime) : App * result ScoreResponse :=
  match upsert_event_and_features (app_db app) req with
  | (db, Raise e) => (with_db app db, Raise e)
  | (db, Ok (ev, fr)) => score_stored (with_db app db) ev fr utcnow
  end.

(** [POST /score-by-event-id]. *)
Definition score_by_event_id (app : App) (x : string) (utcnow : datetime)
  : App * result ScoreResponse :=
  match find_event (app_db app) x with
  | None => (app, Raise (HTTPException 404 "event_id not found"))
  | Some ev =>
      match find_features (app_db app) (id ev) with
      | None => (app, Raise (HTTPException 404 "features not found for event_id"))
      | Some fr => score_stored app ev fr utcnow
      end
  end.

(** ** Retraining, and requests that run concurrently *)

(** One version of the artifact, as [load_artifacts] reads it. *)
Record Published : Type := {
  p_model : IsolationForest;
  p_scaler : StandardScaler;
  p_threshold : Q;
  p_feature_columns : list string
}.

(** [training/train.py]: the columns it trains on and writes into every
    [threshold.json]. *)
Definition FEATURE_COLUMNS : list string :=
  ["log_amount"; "tx_count_5m"; "tx_count_1h"; "spend_1h"; "is_new_merchant";
   "is_new_device"; "is_new_ip"; "distance_from_last_km"; "speed_kmph";
   "hour_of_day"; "day_of_week"]%string.

(** What a training run computes (lines 45-59): the fitted scaler, the
    fitted model and the quantile of the training scores.  The fit itself is
    scikit-learn's. *)
Record Fitted : Type := {
  f_model : IsolationForest;
  f_scaler : StandardScaler;
  f_threshold : Q
}.

(** The version that a training run publishes. *)
Definition published (trained : Fitted) : Published :=
  {| p_model := f_model trained;
     p_scaler := f_scaler trained;
     p_threshold := f_threshold trained;
     p_feature_columns := FEATURE_COLUMNS |}.

Definition with_artifacts (app : App) (dir : ArtifactDir) : App :=
  {| app_db := app_db app; app_artifacts := dir; app_cached := app_cached app |}.



(** Request handlers are plain functions, which the server runs on worker
    threads: they interleave, and nothing in [scoring.py] or [main.py]
    synchronises them.  The steps below are the statements of the source,
    each taken as indivisible, with the local computation that follows a
    statement counted to it.

    [load_artifacts()], statement by statement: the place of a call, the
    parsed [threshold.json] being its one local variable. *)
Inductive LoadTask : Type :=
| AtLine15
| AtLine18
| AtLine21
| AtLine22
| AtLine24
| AtLine27 (t : ThresholdFile)
| AtLine28 (t : ThresholdFile)
| LoadReturned
| LoadRaised (e : exn).

Definition step_load (dir : ArtifactDir) (cached : Cache) (pc : LoadTask)
  : Cache * LoadTask :=
  match pc with
  | AtLine15 =>
      if negb (is_None (c_model cached)) then (cached, LoadReturned) else (cached, AtLine18)
  | AtLine18 =>
      if negb (negb (is_None (model_joblib dir)) && negb (is_None (scaler_joblib dir))
               && negb (is_None (threshold_json dir)))
      then (cached, LoadRaised artifacts_missing)
      else (cached, AtLine21)
  | AtLine21 =>
      match model_joblib dir with
      | None => (cached, LoadRaised FileNotFoundError)
      | Some m =>
          ({| c_model := Some m; c_scaler := c_scaler cached;
              c_threshold := c_threshold cached;
              c_feature_columns := c_feature_columns cached |}, AtLine22)
      end
  | AtLine22 =>
      match scaler_joblib dir with
      | None => (cached, LoadRaised FileNotFoundError)
      | Some sc =>
          ({| c_model := c_model cached; c_scaler := Some sc;
              c_threshold := c_threshold cached;
              c_feature_columns := c_feature_columns cached |}, AtLine24)
      end
  | AtLine24 =>
      match threshold_json dir with
      | None => (cached, LoadRaised FileNotFoundError)
      | Some t => (cached, AtLine27 t)
      end
  | AtLine27 t =>
      ({| c_model := c_model cached; c_scaler := c_scaler cached;
          c_threshold := Some (tf_threshold t);
          c_feature_columns := c_feature_columns cached |}, AtLine28 t)
  | AtLine28 t =>
      ({| c_model := c_model cached; c_scaler := c_scaler cached;
          c_threshold := c_threshold cached;
          c_feature_columns := Some (tf_feature_columns t) |}, LoadReturned)
  | LoadReturned => (cached, LoadReturned)
  | LoadRaised e => (cached, LoadRaised e)
  end.

(** The scoring handler of a stored event, from line 267 of [main.py]: in
    [feature_columns()] (its call of [load_artifacts], then line 33 of
    [scoring.py], with line 268 of [main.py]), in [score_feature_vector] (its
    call of [load_artifacts], then lines 40, 42 and 43 with the arithmetic of
    lines 44-55), and at lines 272-281 of [main.py], whose database work is
    taken as one step. *)
Inductive ScoreTask : Type :=
| InFeatureColumns (pc : LoadTask)
| AtLine33
| InScoreFeatureVector (feature_values : list Q) (pc : LoadTask)
| AtLine40 (feature_values : list Q)
| AtLine42 (Xs : list Q)
| AtLine43 (anomaly_score : Q)
| AtLine272 (scored : Q * Q * bool)
| ScoreReturned (r : result ScoreResponse).

(** A scoring request in flight. *)
Record Scoring : Type := {
  scored_event : Event;
  scored_features : FeatureRow;
  scoring_utcnow : datetime;
  scoring_task : ScoreTask
}.

Definition new_scoring (ev : Event) (fr : FeatureRow) (utcnow : datetime) : Scoring :=
  {| scored_event := ev; scored_features := fr; scoring_utcnow := utcnow;
     scoring_task := InFeatureColumns AtLine15 |}.

Definition at_task (s : Scoring) (t : ScoreTask) : Scoring :=
  {| scored_event := scored_event s; scored_features := scored_features s;
     scoring_utcnow := scoring_utcnow s; scoring_task := t |}.

Definition step_score (app : App) (s : Scoring) : App * Scoring :=
  let ev := scored_event s in
  let fr := scored_features s in
  match scoring_task s with
  | InFeatureColumns pc =>
      match step_load (app_artifacts app) (app_cached app) pc with
      | (cached, LoadReturned) => (with_cached app cached, at_task s AtLine33)
      | (cached, LoadRaised e) => (with_cached app cached, at_task s (ScoreReturned (Raise e)))
      | (cached, pc') => (with_cached app cached, at_task s (InFeatureColumns pc'))
      end
  | AtLine33 =>
      match c_feature_columns (app_cached app) with
      | None => (app, at_task s (ScoreReturned (Raise TypeError)))
      | Some cols =>
          match feature_values_of fr cols with
          | Raise e => (app, at_task s (ScoreReturned (Raise e)))
          | Ok feature_values =>
              (app, at_task s (InScoreFeatureVector feature_values AtLine15))
          end
      end
  | InScoreFeatureVector feature_values pc =>
      match step_load (app_artifacts app) (app_cached app) pc with
      | (cached, LoadReturned) => (with_cached app cached, at_task s (AtLine40 feature_values))
      | (cached, LoadRaised e) => (with_cached app cached, at_task s (ScoreReturned (Raise e)))
      | (cached, pc') =>
          (with_cached app cached, at_task s (InScoreFeatureVector feature_values pc'))
      end
  | AtLine40 feature_values =>
      match c_scaler (app_cached app) with
      | None => (app, at_task s (ScoreReturned (Raise AttributeError)))
      | Some scaler => (app, at_task s (AtLine42 (transform scaler feature_values)))
      end
  | AtLine42 Xs =>
      match c_model (app_cached app) with
      | None => (app, at_task s (ScoreReturned (Raise AttributeError)))
      | Some model => (app, at_task s (AtLine43 (- score_samples model Xs)%Q))
      end
  | AtLine43 anomaly_score =>
      match c_threshold (app_cached app) with
      | None => (app, at_task s (ScoreReturned (Raise TypeError)))
      | Some threshold =>
          let flagged := fle threshold anomaly_score in
          (app, at_task s (AtLine272 (anomaly_score, risk_of anomaly_score threshold, flagged)))
      end
  | AtLine272 (anomaly_score, risk_score, flagged) =>
      let reasons := build_reasons (events (app_db app)) ev fr in
      let db := upsert_score_row (app_db app) ev anomaly_score risk_score flagged
                  reasons (scoring_utcnow s) in
      (with_db app db,
       at_task s (ScoreReturned
                    (Ok {| resp_event_id := event_id ev;
                           resp_anomaly_score := anomaly_score;
                           resp_risk_score := risk_score;
                           resp_flagged := flagged;
                           resp_reasons := reasons |})))
  | ScoreReturned r => (app, s)
  end.

(** [POST /retrain]: [fit_and_save] up to the dump of the model (train.py,
    lines 41-61), the dump of the scaler (line 62), the writing of
    [threshold.json] (lines 64-74), and the four assignments of
    [reset_cache()] (scoring.py, lines 59-62). *)
Inductive RetrainTask : Type :=
| AtDumpModel
| AtDumpScaler
| AtWriteThreshold
| AtResetModel
| AtResetScaler
| AtResetThreshold
| AtResetColumns
| RetrainReturned (r : result unit).

Definition step_retrain (trained : Fitted) (app : App) (t : RetrainTask)
  : App * RetrainTask :=
  let dir := app_artifacts app in
  let cached := app_cached app in
  match t with
  | AtDumpModel =>
      if (length (features (app_db app)) <? 50)%nat
      then (app, RetrainReturned (Raise (RuntimeError "Need at least 50 feature rows to train")))
      else (with_artifacts app {| model_joblib := Some (f_model trained);
                                  scaler_joblib := scaler_joblib dir;
                                  threshold_json := threshold_json dir |},
            AtDumpScaler)
  | AtDumpScaler =>
      (with_artifacts app {| model_joblib := model_joblib dir;
                             scaler_joblib := Some (f_scaler trained);
                             threshold_json := threshold_json dir |},
       AtWriteThreshold)
  | AtWriteThreshold =>
      (with_artifacts app
         {| model_joblib := model_joblib dir;
            scaler_joblib := scaler_joblib dir;
            threshold_json := Some {| tf_threshold := f_threshold trained;
                                      tf_feature_columns := FEATURE_COLUMNS |} |},
       AtResetModel)
  | AtResetModel =>
      (with_cached app {| c_model := None; c_scaler := c_scaler cached;
                          c_threshold := c_threshold cached;
                          c_feature_columns := c_feature_columns cached |},
       AtResetScaler)
  | AtResetScaler =>
      (with_cached app {| c_model := c_model cached; c_scaler := None;
                          c_threshold := c_threshold cached;
                          c_feature_columns := c_feature_columns cached |},
       AtResetThreshold)
  | AtResetThreshold =>
      (with_cached app {| c_model := c_model cached; c_scaler := c_scaler cached;
                          c_threshold := None;
                          c_feature_columns := c_feature_columns cached |},
       AtResetColumns)
  | AtResetColumns =>
      (with_cached app {| c_model := c_model cached; c_scaler := c_scaler cached;
                          c_threshold := c_threshold cached;
                          c_feature_columns := None |},
       RetrainReturned (Ok tt))
  | RetrainReturned r => (app, RetrainReturned r)
  end.

(** The scoring requests, in the order of their arrival, and the one
    retraining. *)
Inductive Thread : Type := ScoreThread (i : nat) | RetrainThread.

Record System : Type := {
  sys_app : App;
  sys_scorings : list Scoring;
  sys_retrain : RetrainTask
}.

Definition start (app : App) (scorings : list Scoring) : System :=
  {| sys_app := app; sys_scorings := scorings; sys_retrain := AtDumpModel |}.

Fixpoint set_nth {A : Type} (i : nat) (x : A) (l : list A) : list A :=
  match l, i with
  | [], _ => []
  | _ :: l', O => x :: l'
  | y :: l', S i' => y :: set_nth i' x l'
  end.

(** The thread the scheduler picks takes its next step. *)
Definition step (trained : Fitted) (sys : System) (th : Thread) : System :=
  match th with
  | ScoreThread i =>
      match nth_error (sys_scorings sys) i with
      | None => sys
      | Some s =>
          let '(app, s') := step_score (sys_app sys) s in
          {| sys_app := app; sys_scorings := set_nth i s' (sys_scorings sys);
             sys_retrain := sys_retrain sys |}
      end
  | RetrainThread =>
      let '(app, t) := step_retrain trained (sys_app sys) (sys_retrain sys) in
      {| sys_app := app; sys_scorings := sys_scorings sys; sys_retrain := t |}
  end.

Definition run (trained : Fitted) (schedule : list Thread) (sys : System) : System :=
  fold_left (step trained) schedule sys.

(** The cache and the directory that hold the version [v] and nothing else. *)
Definition cache_of (v : Published) : Cache :=
  {| c_model := Some (p_model v);
     c_scaler := Some (p_scaler v);
     c_threshold := Some (p_threshold v);
     c_feature_columns := Some (p_feature_columns v) |}.

Definition dir_of (v : Published) : ArtifactDir :=
  {| model_joblib := Some (p_model v);
     scaler_joblib := Some (p_scaler v);
     threshold_json := Some {| tf_threshold := p_threshold v;
                               tf_feature_columns := p_feature_columns v |} |}.

(** ** Data of the examples *)

(** Stand-ins for the [math] functions, enough to run the examples (none of
    which depends on geometry); the theorems hold for every [MathModule]. *)
Definition example_math : MathModule :=
  {| math_radians := fun x => x;
     math_sin := fun _ => 0%Q;
     math_cos := fun _ => 1%Q;
     math_asin := fun x => x;
     math_sqrt := fun x => x;
     math_log := fun x => (x - 1)%Q |}.

(** A parser that knows the timestamps of the examples. *)
Definition example_dateutil : Dateutil :=
  {| parse_timestamp := fun s =>
       if (s =? "0001-01-01T00:30:00")%string then Some 1800000000
       else if (s =? "0001-01-01T02:00:00")%string then Some 7200000000
       else if (s =? "0001-01-01T02:10:00")%string then Some 7800000000
       else None |}.

Definition example_request (eid user : string) (amt : Q) (ts : string) : IngestEventRequest :=
  {| req_event_id := eid;
     req_user_id := user;
     req_merchant_id := "m_target";
     req_amount := amt;
     req_currency := "USD";
     req_timestamp := ts;
     req_lat := 41%Q;
     req_lon := (-87)%Q;
     req_device_id := "d1";
     req_ip := "10.0.0.1";
     req_channel := "web" |}.

(** A service with no artifact published and nothing cached. *)
Definition app_unpublished : App :=
  {| app_db := empty_db;
     app_artifacts := {| model_joblib := None; scaler_joblib := None;
                         threshold_json := None |};
     app_cached := empty_cache |}.

Definition request_e1 : IngestEventRequest :=
  example_request "e1" "u1" 25 "0001-01-01T02:00:00".

(** Two training runs: a scaler that divides by 10, resp. 5; a scorer whose
    raw score is the first scaled feature, resp. twice it; thresholds 1/5 and
    4/5. *)
Definition fitted_1 : Fitted :=
  {| f_model := {| score_samples := fun xs => (- hd 0 xs)%Q |};
     f_scaler := {| transform := map (fun x => x / 10)%Q |};
     f_threshold := 1 # 5 |}.

Definition fitted_2 : Fitted :=
  {| f_model := {| score_samples := fun xs => (- (2 * hd 0 xs))%Q |};
     f_scaler := {| transform := map (fun x => x / 5)%Q |};
     f_threshold := 4 # 5 |}.

Definition version_1 : Published := published fitted_1.
Definition version_2 : Published := published fitted_2.

(** A history of 51 ingested events: 49 of the user "filler", then two of
    the user "u1" ten minutes apart.  The second of these is the event that
    is scored. *)
Definition history_requests : list IngestEventRequest :=
  map (fun k => example_request ("f" ++ NilEmpty.string_of_uint (Nat.to_uint k))%string
                  "filler" 1 "0001-01-01T02:00:00")
      (seq 1 49)
  ++ [example_request "p" "u1" 3 "0001-01-01T02:00:00";
      example_request "e" "u1" 2 "0001-01-01T02:10:00"].

Definition db_history : Database :=
  fold_left
    (fun db req => fst (@upsert_event_and_features example_math example_dateutil db req))
    history_requests empty_db.

(** The first ingestion into an empty database: the rows it stores. *)
Definition event_e1 : Event := new_event request_e1 7200000000 1.

Definition features_e1 : FeatureRow :=
  {| fr_id := 1; event_id_fk := 1; log_amount := 24;
     tx_count_5m := 0; tx_count_1h := 0; spend_1h := 0;
     is_new_merchant := 1; is_new_device := 1; is_new_ip := 1;
     distance_from_last_km := 0; speed_kmph := 0;
     hour_of_day := 2; day_of_week := 0 |}.

Definition db_e1 : Database :=
  {| events := [event_e1]; features := [features_e1]; scores := [] |}.

(** The scored event of [db_history] and its stored feature row. *)
Definition event_e : Event :=
  new_event (example_request "e" "u1" 2 "0001-01-01T02:10:00") 7800000000 51.

Definition features_e : FeatureRow :=
  {| fr_id := 51; event_id_fk := 51; log_amount := 1;
     tx_count_5m := 0; tx_count_1h := 1; spend_1h := 3;
     is_new_merchant := 0; is_new_device := 0; is_new_ip := 0;
     distance_from_last_km := 0; speed_kmph := 0 # 600000000;
     hour_of_day := 2; day_of_week := 0 |}.

(** The service over [db_history] with [version_1] published: just started
    (nothing cached yet), and with [version_1] cached. *)
Definition app_fresh : App :=
  {| app_db := db_history; app_artifacts := dir_of version_1; app_cached := empty_cache |}.

Definition app_loaded : App :=
  {| app_db := db_history; app_artifacts := dir_of version_1;
     app_cached := cache_of version_1 |}.


Definition response_v2 : ScoreResponse :=
  {| resp_event_id := "e"; resp_anomaly_score := 2 # 5; resp_risk_score := 1000 # 20;
     resp_flagged := false; resp_reasons := [] |}.


(** A scorer whose raw score is the first feature, behind an identity
    scaler, with threshold [thr]. *)
Definition version_raw (thr : Q) : Published :=
  published {| f_model := {| score_samples := fun xs => (- hd 0 xs)%Q |};
               f_scaler := {| transform := fun xs => xs |};
               f_threshold := thr |}.

(** Ten earlier events of "u1", each of amount 50, and a later event of
    "u1" of amount [amt]. *)
Definition ten_of_fifty : list Event :=
  map (fun k => new_event
                  (example_request ("h" ++ NilEmpty.string_of_uint (Nat.to_uint k))%string
                     "u1" 50 "")
                  (Z.of_nat k) (Z.of_nat k))
      (seq 1 10).

Definition event_of_amount (amt : Q) : Event :=
  new_event (example_request "n" "u1" amt "") 7200000000 11.

(** A feature row on which the first five rules fire. *)
Definition features_five_rules : FeatureRow :=
  {| fr_id := 11; event_id_fk := 11; log_amount := 0;
     tx_count_5m := 3; tx_count_1h := 3; spend_1h := 150;
     is_new_merchant := 1; is_new_device := 1; is_new_ip := 1;
     distance_from_last_km := 500; speed_kmph := 3000;
     hour_of_day := 2; day_of_week := 0 |}.

(** What [compute_features] returns for [event_e] over [db_history] and for
    [event_e1] over [db_e1]. *)
Definition computed_e : ComputedFeatures :=
  {| cf_log_amount := 1; cf_tx_count_5m := 0; cf_tx_count_1h := 1; cf_spend_1h := 3;
     cf_is_new_merchant := 0; cf_is_new_device := 0; cf_is_new_ip := 0;
     cf_distance_from_last_km := 0; cf_speed_kmph := 0 # 600000000;
     cf_hour_of_day := 2; cf_day_of_week := 0 |}.

Definition computed_e1 : ComputedFeatures :=
  {| cf_log_amount := 24; cf_tx_count_5m := 0; cf_tx_count_1h := 0; cf_spend_1h := 0;
     cf_is_new_merchant := 1; cf_is_new_device := 1; cf_is_new_ip := 1;
     cf_distance_from_last_km := 0; cf_speed_kmph := 0;
     cf_hour_of_day := 2; cf_day_of_week := 0 |}.

(** The event of the user "u1" that precedes [event_e] in [db_history]. *)
Definition event_p : Event :=
  new_event (example_request "p" "u1" 3 "0001-01-01T02:00:00") 7200000000 50.

(** A service with an empty database and [version_1] cached, and its answer
    to [request_e1]. *)
Definition app_empty_v1 : App :=
  {| app_db := empty_db; app_artifacts := dir_of version_1; app_cached := cache_of version_1 |}.

Definition response_e1 : ScoreResponse :=
  {| resp_event_id := "e1"; resp_anomaly_score := 24 # 10; resp_risk_score := 100;
     resp_flagged := true;
     resp_reasons :=
       [ {| reason := "new_device"; detail := Text "Device not seen before for this user";
            severity := 85 |};
         {| reason := "new_ip"; detail := Text "IP address not seen before for this user";
            severity := 80 |};
         {| reason := "new_merchant";
            detail := Text "Merchant not seen before for this user";
            severity := 65 |} ] |}.



(** A stand-in for the [math] functions whose haversine term comes out as
    2: it exercises the path that [math.asin] takes when rounding carries its
    argument above 1. *)
Definition overshooting_math : MathModule :=
  {| math_radians := fun x => x;
     math_sin := fun _ => 1%Q;
     math_cos := fun _ => 1%Q;
     math_asin := fun x => x;
     math_sqrt := fun x => x;
     math_log := fun x => (x - 1)%Q |}.

Definition request_e2 : IngestEventRequest :=
  example_request "e2" "u1" 2 "0001-01-01T02:10:00".

(** Thirty-one events of "u1" with one and the same timestamp: sixteen of
    amount 1, then fifteen of amount 100; and a later event of amount 10. *)
Definition tied_history : list Event :=
  map (fun k => new_event
                  (example_request ("t" ++ NilEmpty.string_of_uint (Nat.to_uint k))%string
                     "u1" (if (k <=? 16)%nat then 1 else 100) "")
                  3600000000 (Z.of_nat k))
      (seq 1 31).

Definition event_after_ties : Event :=
  new_event (example_request "n" "u1" 10 "") 7200000000 32.

(** Two scoring requests for [event_e], and the answer with the scorer and
    the scaler of [version_2] on the threshold of [version_1]. *)
Definition two_scorings : list Scoring :=
  [new_scoring event_e features_e 0; new_scoring event_e features_e 1].

Definition response_stale_threshold : ScoreResponse :=
  {| resp_event_id := "e"; resp_anomaly_score := 2 # 5; resp_risk_score := 100;
     resp_flagged := true; resp_reasons := [] |}.

(** ** Vocabulary of the statements *)

(** An event of the same user strictly earlier than [ev]. *)
Definition strictly_before (ev e : Event) : bool :=
  by_user (user_id ev) e && ts_lt (timestamp ev) e.

(** An event of user [u] whose timestamp lies in [[start, stop)]. *)
Definition in_window (u : string) (start stop : datetime) (e : Event) : bool :=
  by_user u e && (start <=? timestamp e) && (timestamp e <? stop).

(** [sum(e.amount for e in l)], accumulated from the left. *)
Definition total_amount (l : list Event) : Q :=
  fold_left (fun acc e => (acc + amount e)%Q) l 0%Q.

(** The fixed order in which [build_reasons] evaluates its rules. *)
Definition rule_order : list string :=
  ["new_device"; "new_ip"; "new_merchant"; "impossible_travel";
   "high_velocity_5m"; "high_spend_1h"; "amount_spike"]%string.

Fixpoint index_of (s : string) (l : list string) : nat :=
  match l with
  | [] => 0
  | x :: l' => if (x =? s)%string then 0 else S (index_of s l')
  end.

(** The position of a reason's rule in [rule_order]. *)
Definition rule_position (r : Reason) : nat := index_of (reason r) rule_order.

(** [a] ranks before [b]: higher severity first, and among equal severities
    the rule evaluated first. *)
Definition ranks_before (a b : Reason) : Prop :=
  severity a > severity b
  \/ (severity a = severity b /\ (rule_position a < rule_position b)%nat).

(** The seven rules in evaluation order, each with the test that fires it
    and the reason it emits. *)
Definition candidates (db : list Event) (ev : Event) (fr : FeatureRow)
  : list (bool * Reason) :=
  [ (is_new_device fr =? 1,
     {| reason := "new_device"; detail := Text "Device not seen before for this user";
        severity := 85 |});
    (is_new_ip fr =? 1,
     {| reason := "new_ip"; detail := Text "IP address not seen before for this user";
        severity := 80 |});
    (is_new_merchant fr =? 1,
     {| reason := "new_merchant"; detail := Text "Merchant not seen before for this user";
        severity := 65 |});
    (fle 900 (speed_kmph fr),
     {| reason := "impossible_travel"; detail := TravelSpeed (speed_kmph fr);
        severity := 95 |});
    (3 <=? tx_count_5m fr,
     {| reason := "high_velocity_5m"; detail := TransactionsIn5m (tx_count_5m fr);
        severity := 90 |});
    (fle 800 (spend_1h fr),
     {| reason := "high_spend_1h"; detail := SpendLastHour (spend_1h fr);
        severity := 70 |});
    (amount_spike_fires db ev,
     {| reason := "amount_spike";
        detail := AmountOverMedian (amount ev) (median_of (prior_amounts db ev));
        severity := 75 |}) ].

(** Some file of [artifacts/] does not exist. *)
Definition artifact_absent (dir : ArtifactDir) : Prop :=
  model_joblib dir = None \/ scaler_joblib dir = None \/ threshold_json dir = None.

(** Every feature row points at a stored event (the foreign key of
    [features.event_id_fk]). *)
Definition features_reference_events (db : Database) : Prop :=
  Forall (fun fr => In (event_id_fk fr) (map id (events db))) (features db).

Definition features_missing : exn :=
  HTTPException 500 "event exists but features missing".

(** The all-or-nothing reading of the scoring pipeline: a [POST /score]
    that returns has stored the event, its feature row and its score row; one
    that raises has committed no feature row and no score row. *)
Definition derived_records_all_or_nothing : Prop :=
  forall (M : MathModule) (D : Dateutil) (app : App) (req : IngestEventRequest)
         (utcnow : datetime),
    match score app req utcnow with
    | (app', Ok _) =>
        exists ev fr sr,
          find_event (app_db app') (req_event_id req) = Some ev
          /\ find_features (app_db app') (id ev) = Some fr
          /\ find_score (app_db app') (id ev) = Some sr
    | (app', Raise _) =>
        features (app_db app') = features (app_db app)
        /\ scores (app_db app') = scores (app_db app)
    end.

(** The answer of a scoring request that uses the one version [v] for the
    column order, the scaler, the scorer and the threshold. *)
Definition response_with (v : Published) (evs : list Event) (ev : Event) (fr : FeatureRow)
  : result ScoreResponse :=
  feature_values <- feature_values_of fr (p_feature_columns v) ;;
  let raw := (- score_samples (p_model v) (transform (p_scaler v) feature_values))%Q in
  Ok {| resp_event_id := event_id ev;
        resp_anomaly_score := raw;
        resp_risk_score := risk_of raw (p_threshold v);
        resp_flagged := fle (p_threshold v) raw;
        resp_reasons := build_reasons evs ev fr |}.






Definition has_returned (s : Scoring) : bool :=
  match scoring_task s with
  | ScoreReturned _ => true
  | _ => false
  end.


(** The seven steps of a retraining that no other thread interrupts. *)
Definition swap : list Thread := repeat RetrainThread 7.





(** The databases that the handlers build from the empty one. *)
Inductive reachable_db `{MathModule} `{Dateutil} : Database -> Prop :=
| reachable_empty : reachable_db empty_db
| reachable_upsert (db : Database) (req : IngestEventRequest) :
    reachable_db db -> reachable_db (fst (upsert_event_and_features db req))
| reachable_score_row (db : Database) (ev : Event) (a r : Q) (f : bool)
    (reasons : list Reason) (utcnow : datetime) :
    reachable_db db -> reachable_db (upsert_score_row db ev a r f reasons utcnow).


(** ** Vocabulary of the further properties *)

(** The row of the query of lines 63-69 of [compute_features]: the user's
    most recent event strictly before [ev]. *)
Definition last_event_before (db : list Event) (ev : Event) : option Event :=
  hd_error (order_by_timestamp_desc
              (filter (ts_lt (timestamp ev)) (filter (by_user (user_id ev)) db))).

(** The quantity [a] of line 28 of [haversine_km]. *)
Definition haversine_a `{MathModule} (lat1 lon1 lat2 lon2 : Q) : Q :=
  (math_sin (math_radians (lat2 - lat1) / 2) ^ 2
   + math_cos (math_radians lat1) * math_cos (math_radians lat2)
     * math_sin (math_radians (lon2 - lon1) / 2) ^ 2)%Q.

(** Two calls end alike: both raise the same exception, or both return,
    and equal numbers. *)
Definition same_outcome (r1 r2 : result Q) : Prop :=
  match r1, r2 with
  | Ok d1, Ok d2 => (d1 == d2)%Q
  | Raise e1, Raise e2 => e1 = e2
  | _, _ => False
  end.

(** The identities of [math.radians] and [math.sin] on which the symmetry of
    the haversine distance rests, and their compatibility with equality of
    rationals. *)
Record odd_and_compatible (f : Q -> Q) : Prop := {
  compatible : forall x y, (x == y)%Q -> (f x == f y)%Q;
  odd : forall x, (f (- x) == - f x)%Q
}.

(** The seven rules by decreasing severity, each with its test and the
    reason it emits. *)
Definition ranked_candidates (db : list Event) (ev : Event) (fr : FeatureRow)
  : list (bool * Reason) :=
  [ (fle 900 (speed_kmph fr),
     {| reason := "impossible_travel"; detail := TravelSpeed (speed_kmph fr);
        severity := 95 |});
    (3 <=? tx_count_5m fr,
     {| reason := "high_velocity_5m"; detail := TransactionsIn5m (tx_count_5m fr);
        severity := 90 |});
    (is_new_device fr =? 1,
     {| reason := "new_device"; detail := Text "Device not seen before for this user";
        severity := 85 |});
    (is_new_ip fr =? 1,
     {| reason := "new_ip"; detail := Text "IP address not seen before for this user";
        severity := 80 |});
    (amount_spike_fires db ev,
     {| reason := "amount_spike";
        detail := AmountOverMedian (amount ev) (median_of (prior_amounts db ev));
        severity := 75 |});
    (fle 800 (spend_1h fr),
     {| reason := "high_spend_1h"; detail := SpendLastHour (spend_1h fr);
        severity := 70 |});
    (is_new_merchant fr =? 1,
     {| reason := "new_merchant"; detail := Text "Merchant not seen before for this user";
        severity := 65 |}) ].

(** The uniqueness that [models.py] declares for the tables: the primary
    keys, [Event.event_id], and the foreign key of a feature row and of a
    score row. *)
Definition keys_unique (db : Database) : Prop :=
  NoDup (map id (events db))
  /\ NoDup (map event_id (events db))
  /\ NoDup (map fr_id (features db))
  /\ NoDup (map event_id_fk (features db))
  /\ NoDup (map sr_id (scores db))
  /\ NoDup (map sr_event_id_fk (scores db)).

(** The databases that the handlers can make of [db]: any sequence of calls
    of [upsert_event_and_features] and [upsert_score_row], whether they
    return or raise. *)
Inductive later_db `{MathModule} `{Dateutil} (db : Database) : Database -> Prop :=
| later_now : later_db db db
| later_upsert (db' : Database) (req : IngestEventRequest) :
    later_db db db' -> later_db db (fst (upsert_event_and_features db' req))
| later_score_row (db' : Database) (ev : Event) (a r : Q) (f : bool)
    (reasons : list Reason) (utcnow : datetime) :
    later_db db db' -> later_db db (upsert_score_row db' ev a r f reasons utcnow).

(** * Properties *)

(** ** Lists, filters and the stable sort *)

Section ListFacts.

Context {A : Type}.

Lemma filter_filter_fuse (p q : A -> bool) (l : list A) :
  filter p (filter q l) = filter (fun x => q x && p x) l.
Proof.
  induction l as [|x l IH]; simpl; [reflexivity|].
  destruct (q x); simpl; [destruct (p x)|]; now rewrite IH.
Qed.

Lemma filter_length_mono (p q : A -> bool) (l : list A) :
  (forall x, p x = true -> q x = true) ->
  (length (filter p l) <= length (filter q l))%nat.
Proof.
  intros Hpq. induction l as [|x l IH]; simpl; [lia|].
  destruct (p x) eqn:Hp.
  - rewrite (Hpq x Hp). simpl. lia.
  - destruct (q x); simpl; lia.
Qed.

Lemma hd_error_filter_None (p : A -> bool) (l : list A) :
  hd_error (filter p l) = None -> filter p l = [].
Proof. destruct (filter p l); [reflexivity | discriminate]. Qed.

Lemma hd_error_filter_app_new (p : A -> bool) (l : list A) (x : A) :
  hd_error (filter p l) = None -> p x = true ->
  hd_error (filter p (l ++ [x])) = Some x.
Proof.
  intros Hn Hx. rewrite filter_app, (hd_error_filter_None _ _ Hn). simpl.
  now rewrite Hx.
Qed.

Lemma insert_sorted_perm (le : A -> A -> bool) (x : A) (l : list A) :
  Permutation (insert_sorted le x l) (x :: l).
Proof.
  induction l as [|y l IH]; simpl; [reflexivity|].
  destruct (le x y); [reflexivity|].
  rewrite IH. apply perm_swap.
Qed.

Lemma sort_by_perm (le : A -> A -> bool) (l : list A) : Permutation (sort_by le l) l.
Proof.
  induction l as [|x l IH]; simpl; [constructor|].
  rewrite insert_sorted_perm. now constructor.
Qed.

(** The sort orders its input by any transitive relation that [le] decides
    and that is total in the sense that a failed test gives the converse. *)
Lemma insert_sorted_sorted (le : A -> A -> bool) (R : A -> A -> Prop) (x : A) (l : list A) :
  (forall a b c, R a b -> R b c -> R a c) ->
  (forall a b, le a b = true -> R a b) ->
  (forall a b, le a b = false -> R b a) ->
  StronglySorted R l -> StronglySorted R (insert_sorted le x l).
Proof.
  intros Htrans Ht Hf. induction 1 as [|y l Hl IH Hy]; simpl.
  - repeat constructor.
  - destruct (le x y) eqn:E.
    + constructor; [now constructor|]. constructor; [now apply Ht|].
      eapply Forall_impl; [|exact Hy]. intros z Hz. eapply Htrans; [apply Ht|]; eauto.
    + constructor; [exact IH|].
      rewrite (insert_sorted_perm le x l). constructor; [now apply Hf | exact Hy].
Qed.

Lemma sort_by_sorted (le : A -> A -> bool) (R : A -> A -> Prop) (l : list A) :
  (forall a b c, R a b -> R b c -> R a c) ->
  (forall a b, le a b = true -> R a b) ->
  (forall a b, le a b = false -> R b a) ->
  StronglySorted R (sort_by le l).
Proof.
  intros Htrans Ht Hf. induction l as [|x l IH]; simpl; [constructor|].
  now apply insert_sorted_sorted.
Qed.

Lemma In_firstn (n : nat) (l : list A) (x : A) : In x (firstn n l) -> In x l.
Proof.
  intros Hx. rewrite <- (firstn_skipn n l). apply in_or_app. now left.
Qed.

Lemma firstn_StronglySorted (R : A -> A -> Prop) (n : nat) (l : list A) :
  StronglySorted R l -> StronglySorted R (firstn n l).
Proof.
  intros Hl. revert n. induction Hl as [|x l Hl IH Hx]; intros [|n]; simpl;
    try constructor; auto.
  apply Forall_forall. intros y Hy. rewrite Forall_forall in Hx.
  apply Hx, (In_firstn n), Hy.
Qed.

End ListFacts.

(** ** Comparisons of floats *)

Lemma fle_iff (a b : Q) : fle a b = true <-> (a <= b)%Q.
Proof. apply Qle_bool_iff. Qed.

Lemma flt_iff (a b : Q) : flt a b = true <-> (a < b)%Q.
Proof.
  unfold flt. rewrite negb_true_iff. split.
  - intros Hf. apply Qnot_le_lt. intros Hle. apply Qle_bool_iff in Hle. congruence.
  - intros Hlt. destruct (Qle_bool b a) eqn:E; [|reflexivity].
    apply Qle_bool_iff in E. exfalso. exact (Qlt_not_le _ _ Hlt E).
Qed.

(** ** features.py: windows over strictly earlier events *)

Section Features.

Context `{MathModule}.

Lemma datetime_sub_Ok (t delta w : Z) :
  datetime_sub t delta = Ok w -> w = t - delta /\ 0 <= t - delta.
Proof.
  unfold datetime_sub. destruct (t - delta <? 0) eqn:E; [discriminate|].
  intros [= <-]. apply Z.ltb_ge in E. auto.
Qed.

Lemma datetime_sub_total (t delta : Z) :
  0 <= t - delta -> datetime_sub t delta = Ok (t - delta).
Proof.
  intros Hr. unfold datetime_sub. apply Z.ltb_ge in Hr. now rewrite Hr.
Qed.

(** A query that ends in [timestamp < t] for the user of [ev] sees the same
    rows in the whole table and in its strictly earlier part. *)
Lemma prior_query (X : Event -> bool) (db : list Event) (ev : Event) :
  filter (ts_lt (timestamp ev))
    (filter X (filter (by_user (user_id ev)) (filter (strictly_before ev) db)))
  = filter (ts_lt (timestamp ev)) (filter X (filter (by_user (user_id ev)) db)).
Proof.
  rewrite !filter_filter_fuse. apply filter_ext. intros e. unfold strictly_before.
  destruct (by_user (user_id ev) e), (ts_lt (timestamp ev) e), (X e); reflexivity.
Qed.

Lemma prior_query_last (db : list Event) (ev : Event) :
  filter (ts_lt (timestamp ev)) (filter (by_user (user_id ev)) (filter (strictly_before ev) db))
  = filter (ts_lt (timestamp ev)) (filter (by_user (user_id ev)) db).
Proof.
  rewrite !filter_filter_fuse. apply filter_ext. intros e. unfold strictly_before.
  destruct (by_user (user_id ev) e), (ts_lt (timestamp ev) e); reflexivity.
Qed.

Lemma window_query (start : datetime) (db : list Event) (ev : Event) :
  filter (ts_lt (timestamp ev)) (filter (ts_ge start) (filter (by_user (user_id ev)) db))
  = filter (in_window (user_id ev) start (timestamp ev)) db.
Proof.
  rewrite !filter_filter_fuse. apply filter_ext. intros e.
  unfold in_window, ts_ge, ts_lt.
  destruct (by_user (user_id ev) e), (start <=? timestamp e), (timestamp e <? timestamp ev);
    reflexivity.
Qed.

Lemma compute_features_strictly_before (db : list Event) (ev : Event) :
  compute_features (filter (strictly_before ev) db) ev = compute_features db ev.
Proof.
  unfold compute_features, bind.
  destruct (datetime_sub (timestamp ev) (timedelta 0 5)) as [w5|]; [|reflexivity].
  destruct (datetime_sub (timestamp ev) (timedelta 1 0)) as [w1|]; [|reflexivity].
  cbv zeta. now rewrite !prior_query, prior_query_last.
Qed.

(** [math.log] is called on a positive argument only. *)
Lemma log_of_positive (x : Q) : flt 0 x = true -> log x = Ok (math_log x).
Proof.
  intros Hpos. unfold log. destruct (fle x 0) eqn:E; [|reflexivity].
  apply fle_iff in E. apply flt_iff in Hpos. exfalso. exact (Qlt_not_le _ _ Hpos E).
Qed.

Lemma log_amount_returns (amt : Q) :
  (if flt 0 amt then log amt else Ok 0%Q)
  = Ok (if flt 0 amt then math_log amt else 0%Q).
Proof. destruct (flt 0 amt) eqn:E; [now apply log_of_positive | reflexivity]. Qed.

(** [haversine_km] raises nothing but the [ValueError] of [sqrt] and
    [asin]. *)
Lemma haversine_km_Raise (lat1 lon1 lat2 lon2 : Q) (e : exn) :
  haversine_km lat1 lon1 lat2 lon2 = Raise e -> e = ValueError.
Proof.
  unfold haversine_km, bind, sqrt, asin. cbv zeta.
  destruct (flt _ 0); [now intros [= <-]|].
  destruct (flt _ (-1) || flt 1 _); [now intros [= <-] | discriminate].
Qed.

(** The kinematics of lines 103-109, by the row of the query of lines
    62-68. *)
Lemma compute_features_cases (db : list Event) (ev : Event) :
  let t := timestamp ev in
  let first_of X := hd_error (filter (ts_lt t) (filter X (filter (by_user (user_id ev)) db))) in
  let vector kinematics :=
    {| cf_log_amount := if flt 0 (amount ev) then math_log (amount ev) else 0%Q;
       cf_tx_count_5m :=
         Z.of_nat (length (filter (in_window (user_id ev) (t - timedelta 0 5) t) db));
       cf_tx_count_1h :=
         Z.of_nat (length (filter (in_window (user_id ev) (t - timedelta 1 0) t) db));
       cf_spend_1h :=
         total_amount (filter (in_window (user_id ev) (t - timedelta 1 0) t) db);
       cf_is_new_merchant :=
         if is_None (first_of (by_merchant (merchant_id ev))) then 1 else 0;
       cf_is_new_device := if is_None (first_of (by_device (device_id ev))) then 1 else 0;
       cf_is_new_ip := if is_None (first_of (by_ip (ip ev))) then 1 else 0;
       cf_distance_from_last_km := fst kinematics;
       cf_speed_kmph := snd kinematics;
       cf_hour_of_day := datetime_hour t;
       cf_day_of_week := datetime_weekday t |} in
  if t - timedelta 1 0 <? 0 then compute_features db ev = Raise OverflowError
  else
    match hd_error (order_by_timestamp_desc
                      (filter (ts_lt t) (filter (by_user (user_id ev)) db))) with
    | None => compute_features db ev = Ok (vector (0%Q, 0%Q))
    | Some last =>
        match haversine_km (lat last) (lon last) (lat ev) (lon ev) with
        | Raise e => compute_features db ev = Raise e
        | Ok d =>
            let dt_seconds := total_seconds t (timestamp last) in
            compute_features db ev
            = Ok (vector (if flt 0 dt_seconds
                          then (d, (d / (dt_seconds / 3600))%Q) else (d, 0%Q)))
        end
    end.
Proof.
  cbv zeta. unfold compute_features, datetime_sub.
  destruct (timestamp ev - timedelta 1 0 <? 0) eqn:E1.
  - destruct (timestamp ev - timedelta 0 5 <? 0); reflexivity.
  - assert (E5 : (timestamp ev - timedelta 0 5 <? 0) = false).
    { apply Z.ltb_ge in E1. apply Z.ltb_ge. unfold timedelta in *. lia. }
    rewrite E5. cbn [bind]. cbv zeta. rewrite !window_query, log_amount_returns.
    destruct (hd_error (order_by_timestamp_desc _)) as [last|]; [|reflexivity].
    destruct (haversine_km _ _ _ _) as [d|e]; [|reflexivity].
    cbn [bind]. now destruct (flt 0 (total_seconds _ _)).
Qed.

(** A computation that returns has a timestamp at least one hour after
    [datetime.min]. *)
Lemma compute_features_Ok_window (db : list Event) (ev : Event) (f : ComputedFeatures) :
  compute_features db ev = Ok f -> 0 <= timestamp ev - timedelta 1 0.
Proof.
  intros Hf. pose proof (compute_features_cases db ev) as Hc. cbv zeta in Hc.
  destruct (timestamp ev - timedelta 1 0 <? 0) eqn:E1.
  - rewrite Hc in Hf. discriminate.
  - now apply Z.ltb_ge in E1.
Qed.

(** What a successful computation returns for the window aggregates. *)
Lemma compute_features_windows (db : list Event) (ev : Event) (f : ComputedFeatures) :
  compute_features db ev = Ok f ->
  let t := timestamp ev in
  0 <= t - timedelta 1 0
  /\ cf_tx_count_5m f
     = Z.of_nat (length (filter (in_window (user_id ev) (t - timedelta 0 5) t) db))
  /\ cf_tx_count_1h f
     = Z.of_nat (length (filter (in_window (user_id ev) (t - timedelta 1 0) t) db))
  /\ cf_spend_1h f
     = total_amount (filter (in_window (user_id ev) (t - timedelta 1 0) t) db).
Proof.
  intros Hf. pose proof (compute_features_Ok_window _ _ _ Hf) as Hr.
  pose proof (compute_features_cases db ev) as Hc. cbv zeta in *.
  apply Z.ltb_ge in Hr. rewrite Hr in Hc. apply Z.ltb_ge in Hr.
  split; [exact Hr|].
  destruct (hd_error (order_by_timestamp_desc _)) as [last|].
  - destruct (haversine_km _ _ _ _) as [d|e]; rewrite Hc in Hf; [|discriminate].
    injection Hf as <-. now repeat split.
  - rewrite Hc in Hf. injection Hf as <-. now repeat split.
Qed.

(** The feature vector is a function of the user's strictly earlier
    events alone. *)
Lemma compute_features_same_history (db db' : list Event) (ev : Event) :
  filter (strictly_before ev) db' = filter (strictly_before ev) db ->
  compute_features db' ev = compute_features db ev.
Proof.
  intros Hsame.
  rewrite <- (compute_features_strictly_before db'), Hsame.
  apply compute_features_strictly_before.
Qed.

Lemma strictly_before_irrefl (ev : Event) : strictly_before ev ev = false.
Proof. unfold strictly_before, ts_lt. rewrite Z.ltb_irrefl. apply andb_false_r. Qed.

Lemma compute_features_ignores_self (db : list Event) (ev : Event) :
  compute_features (db ++ [ev]) ev = compute_features db ev.
Proof.
  apply compute_features_same_history. rewrite filter_app. simpl.
  rewrite strictly_before_irrefl. apply app_nil_r.
Qed.

(** C10. The 5-minute count never exceeds the 1-hour count. *)
Theorem compute_features_count_5m_le_1h (db : list Event) (ev : Event) (f : ComputedFeatures) :
  compute_features db ev = Ok f -> cf_tx_count_5m f <= cf_tx_count_1h f.
Proof.
  intros Hf. apply compute_features_windows in Hf. cbv zeta in Hf.
  destruct Hf as (_ & -> & -> & _).
  apply Nat2Z.inj_le, filter_length_mono.
  intros e. unfold in_window, timedelta.
  rewrite !andb_true_iff, !Z.leb_le. intros [[Hu Hs] Ht]. repeat split; auto. lia.
Qed.

End Features.

(** ** reasons.py: ranking and the amount_spike rule *)

Section Stability.

Context {A : Type} (key : A -> Z) (pos : A -> nat).

Let by_key_desc (a b : A) : bool := key b <=? key a.

Let before (a b : A) : Prop := key a > key b \/ (key a = key b /\ (pos a < pos b)%nat).

Lemma insert_sorted_stable (x : A) (l : list A) :
  Forall (fun y => (pos x < pos y)%nat) l ->
  StronglySorted before l -> StronglySorted before (insert_sorted by_key_desc x l).
Proof.
  intros Hpos Hl. induction Hl as [|y l Hl IH Hy]; simpl.
  - repeat constructor.
  - inversion Hpos as [|? ? Hxy Hxl]; subst.
    unfold by_key_desc at 1. destruct (key y <=? key x) eqn:E.
    + apply Z.leb_le in E.
      constructor; [now constructor|]. constructor.
      * unfold before. lia.
      * rewrite Forall_forall in *. intros z Hz.
        specialize (Hy z Hz). specialize (Hxl z Hz). unfold before in *. lia.
    + apply Z.leb_gt in E. constructor; [now apply IH|].
      rewrite (insert_sorted_perm by_key_desc x l). constructor; [|exact Hy].
      unfold before. lia.
Qed.

Lemma sort_by_stable (l : list A) :
  StronglySorted (fun a b => (pos a < pos b)%nat) l ->
  StronglySorted before (sort_by by_key_desc l).
Proof.
  induction 1 as [|x l Hl IH Hx]; simpl; [constructor|].
  apply insert_sorted_stable; [|exact IH].
  now rewrite (sort_by_perm by_key_desc l).
Qed.

(** The sort moves no row past a row of the same key. *)
Lemma insert_sorted_keeps_ties (k : Z) (x : A) (l : list A) :
  filter (fun y => key y =? k) (insert_sorted by_key_desc x l)
  = filter (fun y => key y =? k) (x :: l).
Proof.
  induction l as [|y l IH]; [reflexivity|].
  cbn [insert_sorted]. unfold by_key_desc at 1.
  destruct (key y <=? key x) eqn:E; [reflexivity|].
  apply Z.leb_gt in E. cbn [filter] in *. rewrite IH.
  destruct (key y =? k) eqn:Ey, (key x =? k) eqn:Ex; try reflexivity.
  apply Z.eqb_eq in Ey, Ex. lia.
Qed.

Lemma sort_by_keeps_ties (k : Z) (l : list A) :
  filter (fun y => key y =? k) (sort_by by_key_desc l) = filter (fun y => key y =? k) l.
Proof.
  induction l as [|x l IH]; [reflexivity|].
  cbn [sort_by fold_right]. fold (sort_by by_key_desc l).
  rewrite insert_sorted_keeps_ties. cbn [filter]. now rewrite IH.
Qed.

(** The head of the sorted list is the first row of greatest key. *)
Lemma sort_by_head (l : list A) (x : A) :
  hd_error (sort_by by_key_desc l) = Some x ->
  exists l1 l2,
    l = l1 ++ x :: l2
    /\ Forall (fun y => key y < key x) l1
    /\ Forall (fun y => key y <= key x) l2.
Proof.
  revert x. induction l as [|y l IH]; intros x; [discriminate|].
  cbn [sort_by fold_right]. fold (sort_by by_key_desc l).
  destruct (sort_by by_key_desc l) as [|z s] eqn:Es.
  - pose proof (sort_by_perm by_key_desc l) as Hperm. rewrite Es in Hperm.
    apply Permutation_nil in Hperm. subst l. simpl. intros [= <-].
    exists [], []. repeat split; constructor.
  - destruct (IH z eq_refl) as (l1 & l2 & -> & H1 & H2).
    cbn [insert_sorted]. unfold by_key_desc at 1.
    destruct (key z <=? key y) eqn:E; simpl; intros [= <-].
    + apply Z.leb_le in E. exists [], (l1 ++ z :: l2).
      split; [reflexivity|]. split; [constructor|].
      apply Forall_app. split.
      * eapply Forall_impl; [|exact H1]. simpl. intros a Ha. lia.
      * constructor; [exact E|].
        eapply Forall_impl; [|exact H2]. simpl. intros a Ha. lia.
    + apply Z.leb_gt in E. exists (y :: l1), l2.
      split; [reflexivity|]. split; [|exact H2]. now constructor.
Qed.

End Stability.

Lemma In_append_if (c : bool) (x r : Reason) (l : list Reason) :
  In r (append_if c x l) <-> In r l \/ (c = true /\ r = x).
Proof.
  unfold append_if. destruct c.
  - rewrite in_app_iff. simpl. intuition congruence.
  - intuition congruence.
Qed.

(** Case analysis on the tests of the seven rules. *)
Ltac case_rule_tests db ev fr :=
  destruct (is_new_device fr =? 1), (is_new_ip fr =? 1), (is_new_merchant fr =? 1),
    (fle 900 (speed_kmph fr)), (3 <=? tx_count_5m fr), (fle 800 (spend_1h fr)),
    (amount_spike_fires db ev).

(** The list [reasons] holds, in evaluation order, the reasons of the rules
    whose test succeeded. *)
Lemma fired_reasons_candidates (db : list Event) (ev : Event) (fr : FeatureRow) :
  fired_reasons db ev fr = map snd (filter fst (candidates db ev fr)).
Proof.
  unfold fired_reasons, candidates, append_if. simpl.
  case_rule_tests db ev fr; reflexivity.
Qed.

Lemma fired_reasons_in_rule_order (db : list Event) (ev : Event) (fr : FeatureRow) :
  StronglySorted (fun a b => (rule_position a < rule_position b)%nat) (fired_reasons db ev fr).
Proof.
  rewrite fired_reasons_candidates. unfold candidates. simpl.
  case_rule_tests db ev fr; simpl; repeat (constructor; try (vm_compute; lia)).
Qed.

Lemma ranks_before_severity (a b : Reason) : ranks_before a b -> severity a >= severity b.
Proof. unfold ranks_before. lia. Qed.

(** C3. [build_reasons] returns at most three reasons, ordered by
    non-increasing severity: they are the first three of the fired reasons
    (the rules of the fixed evaluation order whose test succeeded) ranked by
    severity descending, reasons of equal severity in evaluation order. *)
Theorem build_reasons_top3_ranked (db : list Event) (ev : Event) (fr : FeatureRow) :
  (length (build_reasons db ev fr) <= 3)%nat
  /\ StronglySorted (fun a b => severity a >= severity b) (build_reasons db ev fr)
  /\ fired_reasons db ev fr = map snd (filter fst (candidates db ev fr))
  /\ exists ranked,
       Permutation ranked (fired_reasons db ev fr)
       /\ StronglySorted ranks_before ranked
       /\ build_reasons db ev fr = firstn 3 ranked.
Proof.
  assert (Hranked : StronglySorted ranks_before
                      (sorted_by_severity_desc (fired_reasons db ev fr))).
  { apply (sort_by_stable severity rule_position), fired_reasons_in_rule_order. }
  split; [|split; [|split]].
  - apply firstn_le_length.
  - unfold build_reasons. apply firstn_StronglySorted.
    induction Hranked as [|x l Hl IH Hx]; constructor; auto.
    eapply Forall_impl; [|exact Hx]. intros b. apply ranks_before_severity.
  - apply fired_reasons_candidates.
  - exists (sorted_by_severity_desc (fired_reasons db ev fr)).
    split; [apply sort_by_perm|]. split; [exact Hranked | reflexivity].
Qed.

Lemma order_by_timestamp_desc_perm (l : list Event) :
  Permutation (order_by_timestamp_desc l) l.
Proof.
  unfold order_by_timestamp_desc. rewrite sort_by_perm. symmetry. apply Permutation_rev.
Qed.

(** Rows of equal timestamp come out last inserted first. *)
Lemma order_by_timestamp_desc_ties (l : list Event) (t : datetime) :
  filter (fun e => timestamp e =? t) (order_by_timestamp_desc l)
  = rev (filter (fun e => timestamp e =? t) l).
Proof.
  unfold order_by_timestamp_desc.
  rewrite (sort_by_keeps_ties timestamp t (rev l)). apply filter_rev.
Qed.

(** The first row is the last inserted of the rows of latest timestamp. *)
Lemma order_by_timestamp_desc_head (l : list Event) (x : Event) :
  hd_error (order_by_timestamp_desc l) = Some x ->
  exists earlier later,
    l = earlier ++ x :: later
    /\ Forall (fun e => timestamp e <= timestamp x) earlier
    /\ Forall (fun e => timestamp e < timestamp x) later.
Proof.
  unfold order_by_timestamp_desc. intros Hhd.
  destruct (sort_by_head timestamp (rev l) x Hhd) as (l1 & l2 & Hrev & H1 & H2).
  exists (rev l2), (rev l1). split; [|split].
  - rewrite <- (rev_involutive l), Hrev, rev_app_distr. simpl.
    now rewrite <- app_assoc.
  - now apply Forall_rev.
  - now apply Forall_rev.
Qed.

Lemma order_by_timestamp_desc_sorted (l : list Event) :
  StronglySorted (fun a b => timestamp a >= timestamp b) (order_by_timestamp_desc l).
Proof.
  apply sort_by_sorted.
  - intros a b c. lia.
  - intros a b Hle. apply Z.leb_le in Hle. lia.
  - intros a b Hle. apply Z.leb_gt in Hle. lia.
Qed.

Lemma sort_by_fle_sorted (vals : list Q) : StronglySorted Qle (sort_by fle vals).
Proof.
  apply sort_by_sorted.
  - intros a b c. apply Qle_trans.
  - intros a b. apply fle_iff.
  - intros a b Hf. apply Qlt_le_weak, Qnot_le_lt. intros Hle.
    apply fle_iff in Hle. congruence.
Qed.

Lemma amount_spike_fires_iff (db : list Event) (ev : Event) :
  amount_spike_fires db ev = true
  <-> (10 <= length (prior_amounts db ev))%nat
      /\ (0 < median_of (prior_amounts db ev))%Q
      /\ (4 * median_of (prior_amounts db ev) <= amount ev)%Q.
Proof.
  unfold amount_spike_fires.
  destruct (10 <=? length (prior_amounts db ev))%nat eqn:E.
  - apply Nat.leb_le in E. rewrite andb_true_iff, flt_iff, fle_iff. tauto.
  - apply Nat.leb_gt in E. split; [discriminate|]. intros [Hlen _]. lia.
Qed.

Lemma amount_spike_in_fired (db : list Event) (ev : Event) (fr : FeatureRow) (r : Reason) :
  In r (fired_reasons db ev fr) -> reason r = "amount_spike"%string ->
  amount_spike_fires db ev = true /\ severity r = 75.
Proof.
  unfold fired_reasons. rewrite !In_append_if. simpl.
  intros Hin Hr.
  repeat (destruct Hin as [Hin | [Hc ->]]; [|try discriminate Hr; auto]).
  contradiction.
Qed.

Lemma build_reasons_fired (db : list Event) (ev : Event) (fr : FeatureRow) (r : Reason) :
  In r (build_reasons db ev fr) -> In r (fired_reasons db ev fr).
Proof.
  unfold build_reasons. intros Hin. apply In_firstn in Hin.
  eapply Permutation_in; [apply sort_by_perm | exact Hin].
Qed.

(** C4. The amount_spike rule fires (appends its reason, of severity 75, to
    the list that is then ranked and cut to three) exactly when the sample
    of prior amounts (the amounts of the first 30 of the user's strictly
    earlier events, most recent first and, among events of one timestamp,
    last inserted first) has at least 10 elements, the element at index
    [n / 2] of the sample sorted in ascending order is strictly positive, and
    the current amount is at least 4 times it.  A returned amount_spike
    reason is a fired one. *)
Theorem amount_spike_rule (db : list Event) (ev : Event) (fr : FeatureRow) :
  exists recent vals_sorted,
    Permutation recent (filter (strictly_before ev) db)
    /\ StronglySorted (fun a b => timestamp a >= timestamp b) recent
    /\ (forall t, filter (fun e => timestamp e =? t) recent
                  = rev (filter (fun e => timestamp e =? t)
                           (filter (strictly_before ev) db)))
    /\ prior_amounts db ev = map amount (firstn 30 recent)
    /\ Permutation vals_sorted (prior_amounts db ev)
    /\ StronglySorted Qle vals_sorted
    /\ let median := nth (length vals_sorted / 2) vals_sorted 0%Q in
       ((exists r, In r (fired_reasons db ev fr) /\ reason r = "amount_spike"%string)
        <-> (10 <= length (prior_amounts db ev))%nat
            /\ (0 < median)%Q /\ (4 * median <= amount ev)%Q)
       /\ (forall r, In r (fired_reasons db ev fr) -> reason r = "amount_spike"%string ->
             severity r = 75)
       /\ (forall r, In r (build_reasons db ev fr) -> reason r = "amount_spike"%string ->
             In r (fired_reasons db ev fr)).
Proof.
  exists (order_by_timestamp_desc
            (filter (ts_lt (timestamp ev)) (filter (by_user (user_id ev)) db))),
         (sort_by fle (prior_amounts db ev)).
  split; [|split; [|split; [|split; [|split; [|split]]]]].
  - rewrite filter_filter_fuse. apply order_by_timestamp_desc_perm.
  - apply order_by_timestamp_desc_sorted.
  - intros t. rewrite filter_filter_fuse. apply order_by_timestamp_desc_ties.
  - reflexivity.
  - apply sort_by_perm.
  - apply sort_by_fle_sorted.
  - cbv zeta. split.
    + fold (median_of (prior_amounts db ev)). rewrite <- amount_spike_fires_iff. split.
      * intros (r & Hin & Hr). now destruct (amount_spike_in_fired _ _ _ _ Hin Hr).
      * intros Hf.
        exists {| reason := "amount_spike";
                  detail := AmountOverMedian (amount ev) (median_of (prior_amounts db ev));
                  severity := 75 |}.
        split; [|reflexivity].
        unfold fired_reasons. rewrite In_append_if. right. now split.
    + split.
      * intros r Hin Hr. now destruct (amount_spike_in_fired _ _ _ _ Hin Hr).
      * intros r Hin _. now apply build_reasons_fired.
Qed.

(** ** scoring.py: risk normalisation, flag and missing artifacts *)

Lemma risk_of_nonpositive_threshold (a thr : Q) : (thr <= 0)%Q -> risk_of a thr = 0%Q.
Proof. intros Hthr. unfold risk_of. apply fle_iff in Hthr. now rewrite Hthr. Qed.

Lemma risk_of_clamped (a thr : Q) :
  (0 < thr)%Q -> (risk_of a thr == Qmax 0 (Qmin 100 (100 * a / thr)))%Q.
Proof.
  intros Hthr. unfold risk_of.
  destruct (fle thr 0) eqn:E0.
  { apply fle_iff in E0. exfalso. exact (Qlt_not_le _ _ Hthr E0). }
  cbv zeta. set (x := (100 * a / thr)%Q).
  destruct (flt x 0) eqn:Elo.
  - apply flt_iff in Elo.
    assert (Hhi : flt 100 0 = false) by reflexivity. rewrite Hhi.
    rewrite Q.max_l; [reflexivity|].
    apply Qle_trans with x; [apply Q.le_min_r | now apply Qlt_le_weak].
  - assert (Hlo : (0 <= x)%Q).
    { apply Qnot_lt_le. intros Hlt. apply flt_iff in Hlt. congruence. }
    destruct (flt 100 x) eqn:Ehi.
    + apply flt_iff in Ehi.
      rewrite Q.min_l by now apply Qlt_le_weak.
      rewrite Q.max_r; [reflexivity | discriminate].
    + assert (Hhi : (x <= 100)%Q).
      { apply Qnot_lt_le. intros Hlt. apply flt_iff in Hlt. congruence. }
      rewrite Q.min_r by exact Hhi. now rewrite Q.max_r.
Qed.


(** What a call that returns has computed, and from which cache entries. *)
Lemma score_feature_vector_Ok (dir : ArtifactDir) (cached cached' : Cache)
  (feature_values : list Q) (a r : Q) (f : bool) :
  score_feature_vector dir cached feature_values = (cached', Ok (a, r, f)) ->
  exists scaler model thr,
    load_artifacts dir cached = Ok cached'
    /\ c_scaler cached' = Some scaler /\ c_model cached' = Some model
    /\ c_threshold cached' = Some thr
    /\ a = (- score_samples model (transform scaler feature_values))%Q
    /\ r = risk_of a thr
    /\ f = fle thr a.
Proof.
  unfold score_feature_vector.
  destruct (load_artifacts dir cached) as [c|] eqn:El; [|discriminate].
  destruct (c_scaler c) as [scaler|] eqn:Es; [|discriminate].
  destruct (c_model c) as [model|] eqn:Em; [|discriminate].
  destruct (c_threshold c) as [thr|] eqn:Et; [|discriminate].
  intros [= <- <- <- <-]. exists scaler, model, thr. repeat split; auto.
Qed.



(** A call returns as soon as the three artifacts are cached. *)
Lemma score_feature_vector_returns (dir : ArtifactDir) (cached : Cache)
  (feature_values : list Q) (model : IsolationForest) (scaler : StandardScaler) (thr : Q) :
  c_model cached = Some model -> c_scaler cached = Some scaler ->
  c_threshold cached = Some thr ->
  score_feature_vector dir cached feature_values
  = (cached,
     Ok ((- score_samples model (transform scaler feature_values))%Q,
         risk_of (- score_samples model (transform scaler feature_values)) thr,
         fle thr (- score_samples model (transform scaler feature_values)))).
Proof.
  intros Hm Hs Ht. unfold score_feature_vector, load_artifacts.
  rewrite Hm. simpl. now rewrite Hs, Hm, Ht.
Qed.

Lemma load_artifacts_missing (dir : ArtifactDir) (cached : Cache) :
  c_model cached = None -> artifact_absent dir ->
  load_artifacts dir cached = Raise artifacts_missing.
Proof.
  intros Hc Habs. unfold load_artifacts. rewrite Hc. simpl.
  destruct Habs as [-> | [-> | ->]]; [reflexivity | |].
  - now destruct (model_joblib dir).
  - now destruct (model_joblib dir), (scaler_joblib dir).
Qed.

(** ** main.py: ingestion and the scoring handlers *)

Lemma next_id_fresh (ids : list Z) (k : Z) : In k ids -> k < next_id ids.
Proof.
  unfold next_id. intros Hin.
  assert (Hmax : k <= fold_right Z.max 0 ids); [|lia].
  induction ids as [|x ids IH]; cbn [fold_right]; [contradiction|].
  destruct Hin as [-> | Hin]; [apply Z.le_max_l|].
  etransitivity; [exact (IH Hin) | apply Z.le_max_r].
Qed.

Lemma filter_none {A : Type} (p : A -> bool) (l : list A) :
  (forall x, In x l -> p x = false) -> filter p l = [].
Proof.
  induction l as [|x l IH]; simpl; intros Hp; [reflexivity|].
  rewrite (Hp x) by now left. apply IH. intros y Hy. apply Hp. now right.
Qed.

Section Main.

Context `{MathModule} `{Dateutil}.

(** The two ways in which [upsert_event_and_features] returns a pair. *)
Lemma upsert_event_and_features_Ok (db db' : Database) (req : IngestEventRequest)
  (ev : Event) (fr : FeatureRow) :
  upsert_event_and_features db req = (db', Ok (ev, fr)) ->
  (find_event db (req_event_id req) = Some ev
   /\ find_features db (id ev) = Some fr /\ db' = db)
  \/ (find_event db (req_event_id req) = None
      /\ exists ts feats,
           parse_timestamp (req_timestamp req) = Some ts
           /\ ev = new_event req ts (next_id (map id (events db)))
           /\ compute_features (events db ++ [ev]) ev = Ok feats
           /\ fr = new_feature_row ev feats (next_id (map fr_id (features db)))
           /\ db' = {| events := events db ++ [ev];
                       features := features db ++ [fr];
                       scores := scores db |}).
Proof.
  unfold upsert_event_and_features.
  destruct (find_event db (req_event_id req)) as [existing|] eqn:Ee.
  - destruct (find_features db (id existing)) as [fr0|] eqn:Ef; [|discriminate].
    intros [= <- <- <-]. left. auto.
  - destruct (parse_timestamp (req_timestamp req)) as [ts|] eqn:Ep; [|discriminate].
    unfold add_event, add_features. simpl.
    destruct (compute_features _ _) as [feats|] eqn:Ec; [|discriminate].
    intros [= <- <- <-]. right. split; [reflexivity|].
    exists ts, feats. repeat split; auto.
Qed.

(** After a successful call both rows are found again under the request's
    identifier. *)
Lemma upsert_event_and_features_stored (db db' : Database) (req : IngestEventRequest)
  (ev : Event) (fr : FeatureRow) :
  features_reference_events db ->
  upsert_event_and_features db req = (db', Ok (ev, fr)) ->
  find_event db' (req_event_id req) = Some ev /\ find_features db' (id ev) = Some fr.
Proof.
  intros Hwf Hup. apply upsert_event_and_features_Ok in Hup.
  destruct Hup as [(He & Hf & ->) | (He & ts & feats & Hp & Hev & Hc & Hfr & ->)];
    [now split|].
  unfold find_event, find_features in *. simpl. split.
  - apply hd_error_filter_app_new; [exact He|].
    rewrite Hev. simpl. apply String.eqb_refl.
  - apply hd_error_filter_app_new.
    + rewrite filter_none; [reflexivity|].
      intros fr0 Hin. apply Z.eqb_neq. intros Heq.
      unfold features_reference_events in Hwf. rewrite Forall_forall in Hwf.
      specialize (Hwf fr0 Hin). apply next_id_fresh in Hwf.
      rewrite Heq, Hev in Hwf. simpl in Hwf. lia.
    + rewrite Hfr. simpl. apply Z.eqb_refl.
Qed.

(** The foreign-key invariant holds initially and is kept by every write. *)
Lemma features_reference_events_empty : features_reference_events empty_db.
Proof. constructor. Qed.

Lemma upsert_event_and_features_keeps_references (db : Database) (req : IngestEventRequest) :
  features_reference_events db ->
  features_reference_events (fst (upsert_event_and_features db req)).
Proof.
  intros Hwf. unfold upsert_event_and_features.
  destruct (find_event db (req_event_id req)) as [existing|].
  { now destruct (find_features db (id existing)). }
  destruct (parse_timestamp (req_timestamp req)) as [ts|]; [|exact Hwf].
  unfold add_event, add_features. simpl.
  assert (Hold : Forall (fun fr => In (event_id_fk fr)
                   (map id (events db ++ [new_event req ts (next_id (map id (events db)))])))
                   (features db)).
  { eapply Forall_impl; [|exact Hwf]. intros fr Hin.
    rewrite map_app. apply in_or_app. now left. }
  destruct (compute_features _ _) as [feats|]; simpl; [|exact Hold].
  unfold features_reference_events. simpl. apply Forall_app. split; [exact Hold|].
  constructor; [|constructor]. simpl. rewrite map_app. apply in_or_app. right. now left.
Qed.

Lemma upsert_score_row_keeps_references (db : Database) (ev : Event) (a r : Q) (f : bool)
  (reasons : list Reason) (utcnow : datetime) :
  features_reference_events db ->
  features_reference_events (upsert_score_row db ev a r f reasons utcnow).
Proof.
  intros Hwf. unfold upsert_score_row. now destruct (find_score db (id ev)).
Qed.

(** Lines 122-127: a request whose identifier is stored writes nothing,
    and returns the stored feature row when there is one. *)
Lemma upsert_event_and_features_existing (db : Database) (req : IngestEventRequest)
  (existing : Event) :
  find_event db (req_event_id req) = Some existing ->
  fst (upsert_event_and_features db req) = db
  /\ (forall fr, find_features db (id existing) = Some fr ->
        snd (upsert_event_and_features db req) = Ok (existing, fr)).
Proof.
  intros He. unfold upsert_event_and_features. rewrite He.
  destruct (find_features db (id existing)) as [fr0|]; simpl; split; auto.
  - now intros fr [= <-].
  - discriminate.
Qed.

Lemma reachable_db_references (db : Database) :
  reachable_db db -> features_reference_events db.
Proof.
  induction 1.
  - exact features_reference_events_empty.
  - now apply upsert_event_and_features_keeps_references.
  - now apply upsert_score_row_keeps_references.
Qed.

Lemma next_id_not_In (ids : list Z) : ~ In (next_id ids) ids.
Proof. intros Hin. apply next_id_fresh in Hin. lia. Qed.

Lemma next_event_has_no_features (db : Database) :
  features_reference_events db ->
  ~ In (next_id (map id (events db))) (map event_id_fk (features db)).
Proof.
  intros Hwf Hin. apply in_map_iff in Hin. destruct Hin as (fr & Hfk & Hin).
  unfold features_reference_events in Hwf. rewrite Forall_forall in Hwf.
  specialize (Hwf fr Hin). rewrite Hfk in Hwf. now apply next_id_not_In in Hwf.
Qed.


(** C2. The aggregates of [compute_features] range over the half-open
    windows [[t-5m, t)] and [[t-1h, t)] of the same user's events, and the
    whole feature vector (counts, sum, novelty flags, kinematics) is a
    function of the user's events strictly before [t] alone: two tables with
    the same strictly earlier events of that user give the same result.  In
    particular the event itself, which [upsert_event_and_features] has
    inserted when it calls [compute_features], changes nothing: the feature
    row stored for a new event is the one computed over the table as it was
    before the insertion. *)
Theorem compute_features_half_open_windows (db : list Event) (ev : Event) :
  (forall f, compute_features db ev = Ok f ->
     let t := timestamp ev in
     cf_tx_count_5m f
       = Z.of_nat (length (filter (in_window (user_id ev) (t - timedelta 0 5) t) db))
     /\ cf_tx_count_1h f
       = Z.of_nat (length (filter (in_window (user_id ev) (t - timedelta 1 0) t) db))
     /\ cf_spend_1h f
       = total_amount (filter (in_window (user_id ev) (t - timedelta 1 0) t) db))
  /\ (forall db', filter (strictly_before ev) db' = filter (strictly_before ev) db ->
        compute_features db' ev = compute_features db ev)
  /\ compute_features (db ++ [ev]) ev = compute_features db ev
  /\ (forall d d' req fr,
        events d = db -> find_event d (req_event_id req) = None ->
        upsert_event_and_features d req = (d', Ok (ev, fr)) ->
        exists f, compute_features db ev = Ok f
                  /\ fr = new_feature_row ev f (next_id (map fr_id (features d)))).
Proof.
  split; [|split; [|split]].
  - intros f Hf. apply compute_features_windows in Hf. cbv zeta in *. tauto.
  - intros db'. apply compute_features_same_history.
  - apply compute_features_ignores_self.
  - intros d d' req fr <- Hnone Hup. apply upsert_event_and_features_Ok in Hup.
    destruct Hup as [(He & _) | (_ & ts & feats & _ & _ & Hc & Hfr & _)]; [congruence|].
    exists feats. now rewrite <- compute_features_ignores_self.
Qed.

(** *** The score row *)

Lemma hd_error_filter_update_first {A : Type} (p : A -> bool) (f : A -> A) (l : list A) :
  (forall x, p x = true -> p (f x) = true) ->
  hd_error (filter p (update_first p f l)) = option_map f (hd_error (filter p l)).
Proof.
  intros Hpf. induction l as [|x l IH]; simpl; [reflexivity|].
  destruct (p x) eqn:E; simpl.
  - now rewrite (Hpf x E).
  - now rewrite E.
Qed.

(** After [upsert_score_row] the score row of the event carries the score
    and the reasons of this call. *)
Lemma upsert_score_row_stored (db : Database) (ev : Event) (a r : Q) (f : bool)
  (reasons : list Reason) (utcnow : datetime) :
  exists sr,
    find_score (upsert_score_row db ev a r f reasons utcnow) (id ev) = Some sr
    /\ anomaly_score sr = a /\ risk_score sr = r
    /\ flagged sr = (if f then 1 else 0) /\ reasons_json sr = reasons.
Proof.
  unfold upsert_score_row. destruct (find_score db (id ev)) as [old|] eqn:E.
  - unfold find_score in *. simpl.
    rewrite hd_error_filter_update_first by (intros x Hx; exact Hx).
    rewrite E. simpl. eexists. split; [reflexivity|]. simpl. auto.
  - unfold find_score in *. simpl. eexists. split.
    + apply hd_error_filter_app_new; [exact E | apply Z.eqb_refl].
    + simpl. auto.
Qed.

Lemma upsert_score_row_tables (db : Database) (ev : Event) (a r : Q) (f : bool)
  (reasons : list Reason) (utcnow : datetime) :
  events (upsert_score_row db ev a r f reasons utcnow) = events db
  /\ features (upsert_score_row db ev a r f reasons utcnow) = features db.
Proof. unfold upsert_score_row. now destruct (find_score db (id ev)). Qed.

(** Lines 267-281: what they leave in the database. *)
Lemma score_stored_commit (app : App) (ev : Event) (fr : FeatureRow) (utcnow : datetime) :
  match score_stored app ev fr utcnow with
  | (app', Raise _) => app_db app' = app_db app
  | (app', Ok resp) =>
      resp_reasons resp = build_reasons (events (app_db app)) ev fr
      /\ app_db app'
         = upsert_score_row (app_db app) ev (resp_anomaly_score resp) (resp_risk_score resp)
             (resp_flagged resp) (resp_reasons resp) utcnow
  end.
Proof.
  unfold score_stored, score_with_columns.
  destruct (feature_columns (app_artifacts app) (app_cached app)) as [c1 [cols|e1]];
    [|reflexivity].
  simpl. destruct (feature_values_of fr cols) as [fv|e2]; [|reflexivity].
  destruct (score_feature_vector (app_artifacts app) c1 fv) as [c2 [[[a r] f]|e3]];
    [|reflexivity].
  simpl. auto.
Qed.

Lemma score_stored_without_artifacts (app : App) (ev : Event) (fr : FeatureRow)
  (utcnow : datetime) :
  c_model (app_cached app) = None -> artifact_absent (app_artifacts app) ->
  score_stored app ev fr utcnow = (app, Raise artifacts_missing).
Proof.
  intros Hc Habs. unfold score_stored, feature_columns.
  rewrite (load_artifacts_missing _ _ Hc Habs). now destruct app.
Qed.

(** C6 (as the code has it). The pipeline commits in stages.  When
    [upsert_event_and_features] has returned the event and its feature row,
    both are stored before scoring starts; a [POST /score] that then raises
    leaves exactly that database (the event and its feature row stay, no
    score row is written or changed), and one that returns has written, in
    one score row, the score and the reason list it answers with. *)
Theorem score_commits_in_stages (app : App) (req : IngestEventRequest) (utcnow : datetime)
  (db1 : Database) (ev : Event) (fr : FeatureRow) :
  features_reference_events (app_db app) ->
  upsert_event_and_features (app_db app) req = (db1, Ok (ev, fr)) ->
  find_event db1 (req_event_id req) = Some ev
  /\ find_features db1 (id ev) = Some fr
  /\ match score app req utcnow with
     | (app', Raise _) => app_db app' = db1
     | (app', Ok resp) =>
         events (app_db app') = events db1
         /\ features (app_db app') = features db1
         /\ resp_reasons resp = build_reasons (events db1) ev fr
         /\ exists sr,
              find_score (app_db app') (id ev) = Some sr
              /\ anomaly_score sr = resp_anomaly_score resp
              /\ risk_score sr = resp_risk_score resp
              /\ flagged sr = (if resp_flagged resp then 1 else 0)
              /\ reasons_json sr = resp_reasons resp
     end.
Proof.
  intros Hwf Hup.
  destruct (upsert_event_and_features_stored _ _ _ _ _ Hwf Hup) as [He Hf].
  split; [exact He|]. split; [exact Hf|].
  unfold score. rewrite Hup.
  pose proof (score_stored_commit (with_db app db1) ev fr utcnow) as Hc.
  destruct (score_stored (with_db app db1) ev fr utcnow) as [app' [resp|e]];
    simpl in Hc; [|exact Hc].
  destruct Hc as [Hr ->].
  destruct (upsert_score_row_tables db1 ev (resp_anomaly_score resp) (resp_risk_score resp)
              (resp_flagged resp) (resp_reasons resp) utcnow) as [-> ->].
  repeat split; auto. apply upsert_score_row_stored.
Qed.

(** C7. While no model is cached and a file of [artifacts/] is absent,
    every call of [score_feature_vector] raises the "artifacts missing"
    error and leaves the cache as it is, so the next call fails alike.  The
    handlers surface that error: [POST /score] never answers with a score;
    it leaves the cache and the files as they were and the database exactly
    as [POST /ingest] leaves it, so the feature row of the event is computed
    and stored all the same.  ([compute_features] and [build_reasons] take
    neither the files nor the cache: they are functions of the events, the
    event and its feature row alone.) *)
Theorem scoring_without_artifacts_fails (app : App) :
  c_model (app_cached app) = None -> artifact_absent (app_artifacts app) ->
  (forall feature_values,
     score_feature_vector (app_artifacts app) (app_cached app) feature_values
     = (app_cached app, Raise artifacts_missing))
  /\ (forall req utcnow,
        fst (score app req utcnow) = fst (ingest app req)
        /\ app_cached (fst (score app req utcnow)) = app_cached app
        /\ app_artifacts (fst (score app req utcnow)) = app_artifacts app
        /\ snd (score app req utcnow)
           = match snd (upsert_event_and_features (app_db app) req) with
             | Ok _ => Raise artifacts_missing
             | Raise e => Raise e
             end)
  /\ (forall x utcnow resp, snd (score_by_event_id app x utcnow) <> Ok resp).
Proof.
  intros Hc Habs. split; [|split].
  - intros fv. unfold score_feature_vector.
    now rewrite (load_artifacts_missing _ _ Hc Habs).
  - intros req utcnow. unfold score, ingest.
    destruct (upsert_event_and_features (app_db app) req) as [db1 [[ev fr]|e]]; simpl.
    + rewrite score_stored_without_artifacts by assumption. simpl. auto.
    + auto.
  - intros x utcnow resp. unfold score_by_event_id.
    destruct (find_event (app_db app) x) as [ev|]; [|discriminate].
    destruct (find_features (app_db app) (id ev)) as [fr|]; [|discriminate].
    rewrite score_stored_without_artifacts by assumption. discriminate.
Qed.

End Main.

(** ** Concurrent scoring and retraining *)

Section Swap.

Variable trained : Fitted.

Lemma run_cons (th : Thread) (schedule : list Thread) (sys : System) :
  run trained (th :: schedule) sys = run trained schedule (step trained sys th).
Proof. reflexivity. Qed.


Lemma set_nth_same {A : Type} (i : nat) (x : A) (l : list A) :
  nth_error l i = Some x -> set_nth i x l = l.
Proof.
  revert i. induction l as [|y l IH]; intros [|i]; simpl; try discriminate.
  - now intros [= ->].
  - intros Hi. now rewrite IH.
Qed.

Lemma nth_error_set_nth_other {A : Type} (i j : nat) (x : A) (l : list A) :
  i <> j -> nth_error (set_nth i x l) j = nth_error l j.
Proof.
  revert i j. induction l as [|y l IH]; intros [|i] [|j] Hij; simpl; auto;
    try contradiction.
Qed.







Lemma step_score_keeps_request (app : App) (s : Scoring) :
  scored_event (snd (step_score app s)) = scored_event s
  /\ scored_features (snd (step_score app s)) = scored_features s.
Proof.
  unfold step_score.
  destruct (scoring_task s) as [pc| |fv pc|fv|Xs|a|[[a r] f]|r].
  - destruct (step_load _ _ pc) as [c []]; now split.
  - destruct (c_feature_columns _); [|now split].
    destruct (feature_values_of _ _); now split.
  - destruct (step_load _ _ pc) as [c []]; now split.
  - destruct (c_scaler _); now split.
  - destruct (c_model _); now split.
  - destruct (c_threshold _); now split.
  - now split.
  - now split.
Qed.

(** A request that has returned takes no further step. *)
Lemma step_score_returned (app : App) (s : Scoring) :
  has_returned s = true -> step_score app s = (app, s).
Proof.
  unfold has_returned, step_score. now destruct (scoring_task s).
Qed.

Lemma returned_stays (schedule : list Thread) (sys : System) (i : nat) (s : Scoring) :
  nth_error (sys_scorings sys) i = Some s -> has_returned s = true ->
  nth_error (sys_scorings (run trained schedule sys)) i = Some s.
Proof.
  revert sys. induction schedule as [|th schedule IH]; intros sys Hi Hr; [exact Hi|].
  rewrite run_cons. apply IH; [|exact Hr].
  destruct th as [j|]; cbn.
  - destruct (nth_error (sys_scorings sys) j) as [sj|] eqn:Ej; [|exact Hi].
    destruct (Nat.eq_dec j i) as [->|Hne].
    + rewrite Hi in Ej. injection Ej as <-.
      rewrite (step_score_returned _ _ Hr). cbn. now rewrite set_nth_same.
    + destruct (step_score (sys_app sys) sj) as [app' s']. cbn.
      now rewrite nth_error_set_nth_other.
  - destruct (step_retrain trained (sys_app sys) (sys_retrain sys)). exact Hi.
Qed.












End Swap.

(** * The theorems at concrete inputs *)

(** The rows that the examples name are the ones the handlers store. *)
Lemma db_e1_ingested :
  @upsert_event_and_features example_math example_dateutil empty_db request_e1
  = (db_e1, Ok (event_e1, features_e1)).
Proof. reflexivity. Qed.

Lemma db_history_scored_event :
  length (features db_history) = 51%nat
  /\ find_event db_history "e" = Some event_e
  /\ find_features db_history (id event_e) = Some features_e.
Proof. vm_compute. auto. Qed.



(** The scored event of [db_history]: no event of its user in the last five
    minutes, one in the last hour. *)
Lemma compute_features_count_5m_le_1h_witness :
  exists f,
    @compute_features example_math (events db_history) event_e = Ok f
    /\ cf_tx_count_5m f = 0 /\ cf_tx_count_1h f = 1
    /\ cf_tx_count_5m f <= cf_tx_count_1h f.
Proof.
  eexists. split; [vm_compute; reflexivity|]. split; [reflexivity|]. split; [reflexivity|].
  apply (@compute_features_count_5m_le_1h example_math (events db_history) event_e).
  vm_compute. reflexivity.
Defined.



(** [POST /score] of a new event on a service without artifacts, and on one
    with [version_raw 30] published: in both the event and its feature row
    are stored; the first raises and writes no score row, the second stores
    the score row it answers with. *)
Lemma score_commits_in_stages_witness :
  (find_event db_e1 "e1" = Some event_e1
   /\ find_features db_e1 1 = Some features_e1
   /\ app_db (fst (@score example_math example_dateutil app_unpublished request_e1 0)) = db_e1)
  /\ (let app := {| app_db := empty_db; app_artifacts := dir_of (version_raw 30);
                    app_cached := empty_cache |} in
      exists resp,
        snd (@score example_math example_dateutil app request_e1 0) = Ok resp
        /\ resp_risk_score resp = 2400 # 30
        /\ exists sr,
             find_score (app_db (fst (@score example_math example_dateutil app request_e1 0))) 1
             = Some sr
             /\ risk_score sr = resp_risk_score resp
             /\ reasons_json sr = resp_reasons resp).
Proof.
  split.
  - exact (@score_commits_in_stages example_math example_dateutil app_unpublished
             request_e1 0 db_e1 event_e1 features_e1
             features_reference_events_empty db_e1_ingested).
  - cbv zeta.
    pose proof (@score_commits_in_stages example_math example_dateutil
                  {| app_db := empty_db; app_artifacts := dir_of (version_raw 30);
                     app_cached := empty_cache |}
                  request_e1 0 db_e1 event_e1 features_e1
                  features_reference_events_empty db_e1_ingested) as (_ & _ & Hscore).
    destruct (@score example_math example_dateutil
                {| app_db := empty_db; app_artifacts := dir_of (version_raw 30);
                   app_cached := empty_cache |} request_e1 0) as [app' [resp|e]] eqn:E.
    + exists resp. split; [reflexivity|].
      destruct Hscore as (_ & _ & _ & sr & Hsr & _ & Hrisk & _ & Hreasons).
      split; [|exists sr; simpl; auto].
      apply (f_equal snd) in E. simpl in E. injection E as <-. reflexivity.
    + apply (f_equal snd) in E. discriminate E.
Defined.

(** No artifact published: the call of [score_feature_vector] raises, and
    [POST /score] raises the same error after storing the feature row. *)
Lemma scoring_without_artifacts_fails_witness :
  (forall feature_values,
     score_feature_vector (app_artifacts app_unpublished) (app_cached app_unpublished)
       feature_values
     = (empty_cache, Raise artifacts_missing))
  /\ snd (@score example_math example_dateutil app_unpublished request_e1 0)
     = Raise artifacts_missing
  /\ app_db (fst (@score example_math example_dateutil app_unpublished request_e1 0)) = db_e1.
Proof.
  destruct (@scoring_without_artifacts_fails example_math example_dateutil app_unpublished
              eq_refl (or_introl eq_refl)) as (Hcall & Hscore & _).
  split; [exact Hcall|].
  destruct (Hscore request_e1 0) as (Hdb & _ & _ & Hres).
  split; [exact Hres|].
  exact (f_equal app_db Hdb).
Defined.

(** C6, counterexample. On a service without artifacts, [POST /score] of
    the new event "e1" raises, and yet the feature row of "e1" is committed:
    the pipeline is not all-or-nothing. *)
Lemma score_failure_keeps_feature_row :
  snd (@score example_math example_dateutil app_unpublished request_e1 0)
  = Raise artifacts_missing
  /\ features (app_db app_unpublished) = []
  /\ features (app_db (fst (@score example_math example_dateutil app_unpublished
                              request_e1 0)))
     = [features_e1]
  /\ ~ derived_records_all_or_nothing.
Proof.
  split; [reflexivity|]. split; [reflexivity|]. split; [reflexivity|].
  intros Hclaim.
  specialize (Hclaim example_math example_dateutil app_unpublished request_e1 0).
  vm_compute in Hclaim. destruct Hclaim as [Hf _]. discriminate Hf.
Qed.



(** ** Scenarios *)

(** Ten prior amounts of median 50: an amount of 200 or more fires the
    amount_spike rule, a smaller one does not, and neither does any amount
    when only nine prior events exist. *)
Example amount_spike_scenario :
  median_of (prior_amounts ten_of_fifty (event_of_amount 250)) = 50%Q
  /\ amount_spike_fires ten_of_fifty (event_of_amount 250) = true
  /\ amount_spike_fires ten_of_fifty (event_of_amount 200) = true
  /\ amount_spike_fires ten_of_fifty (event_of_amount 199) = false
  /\ amount_spike_fires (tl ten_of_fifty) (event_of_amount 250) = false.
Proof. vm_compute. repeat split. Qed.

(** Six rules fire; the three of highest severity are returned, in order. *)
Example build_reasons_scenario :
  map reason (fired_reasons ten_of_fifty (event_of_amount 250) features_five_rules)
  = ["new_device"; "new_ip"; "new_merchant"; "impossible_travel"; "high_velocity_5m";
     "amount_spike"]%string
  /\ map (fun r => (reason r, severity r))
         (build_reasons ten_of_fifty (event_of_amount 250) features_five_rules)
     = [("impossible_travel", 95); ("high_velocity_5m", 90); ("new_device", 85)]%string.
Proof. vm_compute. split; reflexivity. Qed.

(** An event in the first hour of the calendar: the subtraction of the
    one-hour window raises after the event has been committed, and a second
    submission finds the event without its feature row. *)
Example early_timestamp_scenario :
  let req := example_request "e0" "u1" 25 "0001-01-01T00:30:00" in
  let first := @upsert_event_and_features example_math example_dateutil empty_db req in
  snd first = Raise OverflowError
  /\ map event_id (events (fst first)) = ["e0"%string]
  /\ features (fst first) = []
  /\ snd (@upsert_event_and_features example_math example_dateutil (fst first) req)
     = Raise (HTTPException 500 "event exists but features missing").
Proof. vm_compute. repeat split. Qed.

(** Events of equal timestamp: the query ranks the last inserted first, so
    the sample of thirty leaves out the first inserted of the thirty-one.
    Its median is 100 and an amount of 10 is no spike; over the first thirty
    inserted alone the median is 1 and the rule fires. *)
Example tied_timestamps_scenario :
  hd_error (order_by_timestamp_desc tied_history) = nth_error tied_history 30
  /\ prior_amounts tied_history event_after_ties = repeat 100%Q 15 ++ repeat 1%Q 15
  /\ median_of (prior_amounts tied_history event_after_ties) = 100%Q
  /\ amount_spike_fires tied_history event_after_ties = false
  /\ median_of (prior_amounts (firstn 30 tied_history) event_after_ties) = 1%Q
  /\ amount_spike_fires (firstn 30 tied_history) event_after_ties = true.
Proof. vm_compute. repeat split. Qed.

(** A haversine term above 1: [math.asin] raises after the event has been
    committed, and a second submission finds the event without its feature
    row. *)
Example asin_domain_scenario :
  let first := @upsert_event_and_features overshooting_math example_dateutil db_e1
                 request_e2 in
  snd first = Raise ValueError
  /\ map event_id (events (fst first)) = ["e1"; "e2"]%string
  /\ features (fst first) = [features_e1]
  /\ snd (@upsert_event_and_features overshooting_math example_dateutil (fst first)
            request_e2)
     = Raise (HTTPException 500 "event exists but features missing").
Proof. vm_compute. repeat split. Qed.

(** Two requests on a service that has just started, and no retraining: the
    first has assigned the model and not yet the columns when the second
    finds the model cached, returns from [load_artifacts] and reads
    [feature_columns] as [None]. *)
Example cold_start_scenario :
  map scoring_task
    (sys_scorings (run fitted_2 (repeat (ScoreThread 0) 3 ++ repeat (ScoreThread 1) 2)
                     (start app_fresh two_scorings)))
  = [InFeatureColumns AtLine22; ScoreReturned (Raise TypeError)].
Proof. vm_compute. reflexivity. Qed.

(** A request that the retraining overtakes between its reading of
    [threshold.json] and its assignment of the threshold: it assigns the
    stale threshold after [reset_cache] has returned, and a request that
    starts only then, and has loaded [version_2], answers with the stale
    threshold. *)
Example stale_threshold_scenario :
  let overtaken := repeat (ScoreThread 0) 5 ++ swap in
  let schedule :=
    overtaken ++ repeat (ScoreThread 1) 7 ++ repeat (ScoreThread 0) 2
    ++ repeat (ScoreThread 1) 6 in
  sys_retrain (run fitted_2 overtaken (start app_fresh two_scorings))
  = RetrainReturned (Ok tt)
  /\ map scoring_task (sys_scorings (run fitted_2 overtaken (start app_fresh two_scorings)))
     = [InFeatureColumns (AtLine27 {| tf_threshold := 1 # 5;
                                      tf_feature_columns := FEATURE_COLUMNS |});
        InFeatureColumns AtLine15]
  /\ map scoring_task (sys_scorings (run fitted_2 schedule (start app_fresh two_scorings)))
     = [AtLine33; ScoreReturned (Ok response_stale_threshold)]
  /\ response_with version_2 (events (app_db app_fresh)) event_e features_e = Ok response_v2
  /\ resp_flagged response_stale_threshold = true
  /\ resp_flagged response_v2 = false.
Proof. vm_compute. repeat split. Qed.

(** * Further properties *)

(** ** features.py *)

Section MoreFeatures.

Context `{MathModule}.

Lemma odd_at_zero (f : Q -> Q) : odd_and_compatible f -> (f 0 == 0)%Q.
Proof.
  intros [_ Hodd]. specialize (Hodd 0%Q). change (- 0)%Q with 0%Q in Hodd.
  assert (H2 : (f 0 + f 0 == 0)%Q) by (rewrite Hodd at 1; ring).
  assert (H3 : (f 0 == (f 0 + f 0) / 2)%Q) by field.
  rewrite H3, H2. reflexivity.
Qed.

Lemma square_opp (x y : Q) : (x == - y)%Q -> (x ^ 2 == y ^ 2)%Q.
Proof. intros ->. simpl. ring. Qed.

Lemma square_compat (x y : Q) : (x == y)%Q -> (x ^ 2 == y ^ 2)%Q.
Proof. now intros ->. Qed.

Lemma flt_false_iff (a b : Q) : flt a b = false <-> (b <= a)%Q.
Proof. unfold flt. rewrite negb_false_iff. apply Qle_bool_iff. Qed.

Lemma flt_compat (a a' b b' : Q) : (a == a')%Q -> (b == b')%Q -> flt a b = flt a' b'.
Proof. intros Ha Hb. unfold flt. now rewrite Ha, Hb. Qed.

(** [haversine_km] by the quantity [a]: it raises when [a] is negative or
    its root lies outside [[-1, 1]], and returns the distance otherwise. *)
Lemma haversine_km_by_a (lat1 lon1 lat2 lon2 : Q) :
  let a := haversine_a lat1 lon1 lat2 lon2 in
  haversine_km lat1 lon1 lat2 lon2
  = if flt a 0 || flt (math_sqrt a) (-1) || flt 1 (math_sqrt a)
    then Raise ValueError
    else Ok (6371 * (2 * math_asin (math_sqrt a)))%Q.
Proof.
  cbv zeta. unfold haversine_km, bind, sqrt, asin. cbv zeta.
  fold (haversine_a lat1 lon1 lat2 lon2).
  destruct (flt (haversine_a lat1 lon1 lat2 lon2) 0); [reflexivity|]. simpl.
  now destruct (flt _ (-1) || flt 1 _).
Qed.

(** X1. The haversine distance of a point to itself is 0: the call returns,
    and returns 0. *)
Theorem haversine_km_self (lat1 lon1 : Q) :
  odd_and_compatible math_radians -> odd_and_compatible math_sin ->
  (forall x y, (x == y)%Q -> (math_sqrt x == math_sqrt y)%Q) ->
  (forall x y, (x == y)%Q -> (math_asin x == math_asin y)%Q) ->
  (math_sqrt 0 == 0)%Q -> (math_asin 0 == 0)%Q ->
  exists d, haversine_km lat1 lon1 lat1 lon1 = Ok d /\ (d == 0)%Q.
Proof.
  intros Hrad Hsin Hsqrt Hasin Hsqrt0 Hasin0.
  assert (Hhalf : forall a, (math_sin (math_radians (a - a) / 2) ^ 2 == 0)%Q).
  { intros a.
    assert (Hz : (math_sin (math_radians (a - a) / 2) == 0)%Q).
    { rewrite <- (odd_at_zero _ Hsin). apply (compatible _ Hsin).
      assert (Hr : (math_radians (a - a) == 0)%Q).
      { rewrite <- (odd_at_zero _ Hrad). apply (compatible _ Hrad). ring. }
      rewrite Hr. reflexivity. }
    rewrite (square_compat _ _ Hz). reflexivity. }
  assert (Ha : (haversine_a lat1 lon1 lat1 lon1 == 0)%Q).
  { unfold haversine_a. rewrite (Hhalf lat1), (Hhalf lon1). ring. }
  assert (Hroot : (math_sqrt (haversine_a lat1 lon1 lat1 lon1) == 0)%Q)
    by exact (Qeq_trans _ _ _ (Hsqrt _ _ Ha) Hsqrt0).
  pose proof (haversine_km_by_a lat1 lon1 lat1 lon1) as Hk. cbv zeta in Hk.
  rewrite (flt_compat _ 0 0 0 Ha (Qeq_refl 0)) in Hk.
  rewrite (flt_compat _ 0 (-1) (-1) Hroot (Qeq_refl _)) in Hk.
  rewrite (flt_compat 1 1 _ 0 (Qeq_refl 1) Hroot) in Hk.
  change (flt 0 0 || flt 0 (-1) || flt 1 0) with false in Hk.
  eexists. split; [exact Hk|].
  rewrite (Hasin _ _ Hroot), Hasin0. ring.
Qed.

(** X2. The haversine distance is symmetric in its two points: the two calls
    raise alike or return equal distances. *)
Theorem haversine_km_symmetric (lat1 lon1 lat2 lon2 : Q) :
  odd_and_compatible math_radians -> odd_and_compatible math_sin ->
  (forall x y, (x == y)%Q -> (math_sqrt x == math_sqrt y)%Q) ->
  (forall x y, (x == y)%Q -> (math_asin x == math_asin y)%Q) ->
  same_outcome (haversine_km lat1 lon1 lat2 lon2) (haversine_km lat2 lon2 lat1 lon1).
Proof.
  intros Hrad Hsin Hsqrt Hasin.
  assert (Hhalf : forall a b, (math_sin (math_radians (b - a) / 2) ^ 2
                               == math_sin (math_radians (a - b) / 2) ^ 2)%Q).
  { intros a b. apply square_opp. rewrite <- (odd _ Hsin).
    apply (compatible _ Hsin).
    assert (Hr : (math_radians (b - a) == - math_radians (a - b))%Q).
    { rewrite <- (odd _ Hrad). apply (compatible _ Hrad). ring. }
    rewrite Hr. field. }
  assert (Ha : (haversine_a lat1 lon1 lat2 lon2 == haversine_a lat2 lon2 lat1 lon1)%Q).
  { unfold haversine_a. rewrite (Hhalf lat1 lat2), (Hhalf lon1 lon2). ring. }
  pose proof (Hsqrt _ _ Ha) as Hroot.
  rewrite !haversine_km_by_a. cbv zeta.
  rewrite (flt_compat _ _ 0 0 Ha (Qeq_refl 0)).
  rewrite (flt_compat _ _ (-1) (-1) Hroot (Qeq_refl _)).
  rewrite (flt_compat 1 1 _ _ (Qeq_refl 1) Hroot).
  destruct (flt _ 0 || flt _ (-1) || flt 1 _); simpl; [reflexivity|].
  rewrite (Hasin _ _ Hroot). reflexivity.
Qed.

(** What a successful computation returns for the flags, the kinematics,
    the amount and the clock fields. *)
Lemma compute_features_fields (db : list Event) (ev : Event) (f : ComputedFeatures) :
  compute_features db ev = Ok f ->
  let t := timestamp ev in
  let first_of X := hd_error (filter (ts_lt t) (filter X (filter (by_user (user_id ev)) db))) in
  cf_is_new_merchant f = (if is_None (first_of (by_merchant (merchant_id ev))) then 1 else 0)
  /\ cf_is_new_device f = (if is_None (first_of (by_device (device_id ev))) then 1 else 0)
  /\ cf_is_new_ip f = (if is_None (first_of (by_ip (ip ev))) then 1 else 0)
  /\ match last_event_before db ev with
     | None => (cf_distance_from_last_km f, cf_speed_kmph f) = (0%Q, 0%Q)
     | Some last =>
         exists d,
           haversine_km (lat last) (lon last) (lat ev) (lon ev) = Ok d
           /\ (cf_distance_from_last_km f, cf_speed_kmph f)
              = let dt_seconds := total_seconds t (timestamp last) in
                if flt 0 dt_seconds then (d, (d / (dt_seconds / 3600))%Q) else (d, 0%Q)
     end
  /\ cf_log_amount f = (if flt 0 (amount ev) then math_log (amount ev) else 0%Q)
  /\ cf_hour_of_day f = datetime_hour t
  /\ cf_day_of_week f = datetime_weekday t.
Proof.
  intros Hf. pose proof (compute_features_Ok_window _ _ _ Hf) as Hr.
  pose proof (compute_features_cases db ev) as Hc. cbv zeta in *.
  apply Z.ltb_ge in Hr. rewrite Hr in Hc. unfold last_event_before.
  destruct (hd_error (order_by_timestamp_desc _)) as [last|].
  - destruct (haversine_km _ _ _ _) as [d|e]; rewrite Hc in Hf; [|discriminate].
    injection Hf as <-. cbn. repeat split; try reflexivity.
    exists d. split; [reflexivity|]. now destruct (flt 0 (total_seconds _ _)).
  - rewrite Hc in Hf. injection Hf as <-. now repeat split.
Qed.

Lemma hd_error_In {A : Type} (l : list A) (x : A) : hd_error l = Some x -> In x l.
Proof. destruct l; simpl; [discriminate|]. intros [= ->]. now left. Qed.

Lemma hd_error_filter_None_iff {A : Type} (p : A -> bool) (l : list A) :
  hd_error (filter p l) = None <-> forall x, In x l -> p x = false.
Proof.
  split.
  - intros Hn x Hx. apply hd_error_filter_None in Hn.
    destruct (p x) eqn:E; [|reflexivity].
    assert (Hin : In x (filter p l)) by (apply filter_In; auto).
    rewrite Hn in Hin. contradiction.
  - intros Hall. now rewrite filter_none.
Qed.

(** The first query of a user that has [X] in common with [ev] finds a row
    exactly when a strictly earlier event of the user satisfies [X]. *)
Lemma seen_before_iff (X : Event -> bool) (db : list Event) (ev : Event) :
  is_None (hd_error (filter (ts_lt (timestamp ev))
                       (filter X (filter (by_user (user_id ev)) db)))) = false
  <-> exists e, In e db /\ strictly_before ev e = true /\ X e = true.
Proof.
  rewrite !filter_filter_fuse.
  destruct (hd_error (filter _ db)) as [e|] eqn:E; simpl.
  - split; [intros _|reflexivity].
    apply hd_error_In, filter_In in E. destruct E as [Hin Hp].
    rewrite !andb_true_iff in Hp. exists e. unfold strictly_before.
    rewrite andb_true_iff. tauto.
  - split; [discriminate|]. intros (e & Hin & Hb & HX).
    rewrite hd_error_filter_None_iff in E. specialize (E e Hin).
    unfold strictly_before in Hb. rewrite andb_true_iff in Hb.
    destruct Hb as [Hu Ht]. rewrite Hu, HX, Ht in E. discriminate.
Qed.

(** X3. Each novelty flag is 0 or 1, and it is 0 exactly when a strictly
    earlier event of the same user has the same merchant (device, IP). *)
Theorem compute_features_novelty (db : list Event) (ev : Event) (f : ComputedFeatures) :
  compute_features db ev = Ok f ->
  (cf_is_new_merchant f = 0 \/ cf_is_new_merchant f = 1)
  /\ (cf_is_new_device f = 0 \/ cf_is_new_device f = 1)
  /\ (cf_is_new_ip f = 0 \/ cf_is_new_ip f = 1)
  /\ (cf_is_new_merchant f = 0
      <-> exists e, In e db /\ strictly_before ev e = true
                    /\ merchant_id e = merchant_id ev)
  /\ (cf_is_new_device f = 0
      <-> exists e, In e db /\ strictly_before ev e = true /\ device_id e = device_id ev)
  /\ (cf_is_new_ip f = 0
      <-> exists e, In e db /\ strictly_before ev e = true /\ ip e = ip ev).
Proof.
  intros Hf. apply compute_features_fields in Hf. cbv zeta in Hf.
  destruct Hf as (Hm & Hd & Hi & _).
  assert (Hflag : forall X (P : Event -> Prop) (v : Z),
            (forall e, X e = true <-> P e) ->
            v = (if is_None (hd_error (filter (ts_lt (timestamp ev))
                                         (filter X (filter (by_user (user_id ev)) db))))
                 then 1 else 0) ->
            (v = 0 \/ v = 1)
            /\ (v = 0 <-> exists e, In e db /\ strictly_before ev e = true /\ P e)).
  { intros X P v HX ->.
    pose proof (seen_before_iff X db ev) as Hseen.
    destruct (is_None (hd_error (filter (ts_lt (timestamp ev))
                                   (filter X (filter (by_user (user_id ev)) db))))).
    - split; [now right|]. split; [discriminate|].
      intros (e & Hin & Hb & HP). apply HX in HP.
      assert (Hex : exists e, In e db /\ strictly_before ev e = true /\ X e = true)
        by (exists e; auto).
      apply Hseen in Hex. discriminate.
    - split; [now left|]. split; [intros _|reflexivity].
      destruct (proj1 Hseen eq_refl) as (e & Hin & Hb & HXe).
      exists e. rewrite <- HX. auto. }
  destruct (Hflag _ (fun e => merchant_id e = merchant_id ev) _
              (fun e => String.eqb_eq (merchant_id e) (merchant_id ev)) Hm) as [Hm1 Hm2].
  destruct (Hflag _ (fun e => device_id e = device_id ev) _
              (fun e => String.eqb_eq (device_id e) (device_id ev)) Hd) as [Hd1 Hd2].
  destruct (Hflag _ (fun e => ip e = ip ev) _
              (fun e => String.eqb_eq (ip e) (ip ev)) Hi) as [Hi1 Hi2].
  tauto.
Qed.

(** The last event that the kinematics use. *)
Lemma last_event_before_spec (db : list Event) (ev : Event) :
  match last_event_before db ev with
  | None => filter (strictly_before ev) db = []
  | Some last =>
      In last db /\ strictly_before ev last = true
      /\ exists earlier later,
           filter (strictly_before ev) db = earlier ++ last :: later
           /\ Forall (fun e => timestamp e <= timestamp last) earlier
           /\ Forall (fun e => timestamp e < timestamp last) later
  end.
Proof.
  unfold last_event_before. rewrite filter_filter_fuse.
  fold (strictly_before ev).
  destruct (hd_error (order_by_timestamp_desc (filter (strictly_before ev) db)))
    as [last|] eqn:E.
  - destruct (order_by_timestamp_desc_head _ _ E) as (earlier & later & Hsplit & H1 & H2).
    assert (Hin : In last (filter (strictly_before ev) db))
      by (rewrite Hsplit; apply in_elt).
    apply filter_In in Hin. destruct Hin as [Hin Hb].
    split; [exact Hin|]. split; [exact Hb|]. now exists earlier, later.
  - pose proof (order_by_timestamp_desc_perm (filter (strictly_before ev) db)) as Hperm.
    destruct (order_by_timestamp_desc _); [|discriminate].
    now apply Permutation_nil in Hperm.
Qed.

Lemma total_seconds_positive (t t' : datetime) :
  t' < t -> flt 0 (total_seconds t t') = true.
Proof.
  intros Hlt. apply flt_iff. unfold total_seconds, Qlt. simpl. lia.
Qed.

(** X4. The kinematics.  Without a strictly earlier event of the user, distance
    and speed are 0.  Otherwise they are measured from the latest such event
    (the last inserted one when several share the latest timestamp), for
    which [haversine_km] has returned the distance, and the speed is the
    distance over the elapsed hours: the elapsed time is strictly positive,
    so the branch that leaves the speed at 0 is never taken. *)
Theorem compute_features_kinematics (db : list Event) (ev : Event) (f : ComputedFeatures) :
  compute_features db ev = Ok f ->
  match last_event_before db ev with
  | None =>
      filter (strictly_before ev) db = []
      /\ cf_distance_from_last_km f = 0%Q /\ cf_speed_kmph f = 0%Q
  | Some last =>
      (exists earlier later,
         filter (strictly_before ev) db = earlier ++ last :: later
         /\ Forall (fun e => timestamp e <= timestamp last) earlier
         /\ Forall (fun e => timestamp e < timestamp last) later)
      /\ (0 < total_seconds (timestamp ev) (timestamp last))%Q
      /\ haversine_km (lat last) (lon last) (lat ev) (lon ev)
         = Ok (cf_distance_from_last_km f)
      /\ cf_speed_kmph f
         = (cf_distance_from_last_km f
            / (total_seconds (timestamp ev) (timestamp last) / 3600))%Q
  end.
Proof.
  intros Hf. apply compute_features_fields in Hf. cbv zeta in Hf.
  destruct Hf as (_ & _ & _ & Hk & _).
  pose proof (last_event_before_spec db ev) as Hlast.
  destruct (last_event_before db ev) as [last|].
  - destruct Hlast as (Hin & Hb & Hpos). destruct Hk as (d & Hd & Hk).
    assert (Hlt : timestamp last < timestamp ev).
    { unfold strictly_before, ts_lt in Hb. rewrite andb_true_iff in Hb.
      now apply Z.ltb_lt. }
    rewrite (total_seconds_positive _ _ Hlt) in Hk. injection Hk as Hdist Hspeed.
    split; [exact Hpos|]. split; [apply flt_iff, total_seconds_positive, Hlt|].
    split; [now rewrite Hdist | now rewrite Hspeed, Hdist].
  - injection Hk as Hdist Hspeed. auto.
Qed.

(** The exceptions of [compute_features], and when each is raised. *)
Lemma compute_features_Raise (db : list Event) (ev : Event) (e : exn) :
  compute_features db ev = Raise e ->
  (e = OverflowError /\ timestamp ev < 3600000000)
  \/ (e = ValueError /\ 3600000000 <= timestamp ev
      /\ exists last,
           last_event_before db ev = Some last
           /\ haversine_km (lat last) (lon last) (lat ev) (lon ev) = Raise ValueError).
Proof.
  intros Hr. pose proof (compute_features_cases db ev) as Hc. cbv zeta in Hc.
  unfold last_event_before.
  destruct (timestamp ev - timedelta 1 0 <? 0) eqn:E1.
  - rewrite Hc in Hr. injection Hr as <-. left. split; [reflexivity|].
    apply Z.ltb_lt in E1. unfold timedelta in E1. lia.
  - apply Z.ltb_ge in E1.
    destruct (hd_error (order_by_timestamp_desc _)) as [last|].
    + destruct (haversine_km _ _ _ _) as [d|e0] eqn:Eh; rewrite Hc in Hr; [discriminate|].
      injection Hr as <-. pose proof (haversine_km_Raise _ _ _ _ _ Eh) as ->.
      right. split; [reflexivity|]. split; [unfold timedelta in E1; lia|].
      now exists last.
    + rewrite Hc in Hr. discriminate.
Qed.

(** X5. The exceptions of [compute_features].  For a timestamp in the first
    hour of the calendar it raises [OverflowError].  For every other
    timestamp it returns a feature vector, unless the user has a strictly
    earlier event and [haversine_km] raises for it: then it raises that
    [ValueError], which [haversine_km] raises exactly when the quantity [a]
    is negative or its root lies outside [[-1, 1]].  It raises nothing
    else. *)
Theorem compute_features_exceptions (db : list Event) (ev : Event) :
  (timestamp ev < 3600000000 -> compute_features db ev = Raise OverflowError)
  /\ (3600000000 <= timestamp ev ->
      match last_event_before db ev with
      | None => exists f, compute_features db ev = Ok f
      | Some last =>
          let a := haversine_a (lat last) (lon last) (lat ev) (lon ev) in
          if flt a 0 || flt (math_sqrt a) (-1) || flt 1 (math_sqrt a)
          then compute_features db ev = Raise ValueError
          else exists f,
                 compute_features db ev = Ok f
                 /\ cf_distance_from_last_km f
                    = (6371 * (2 * math_asin (math_sqrt a)))%Q
      end)
  /\ (forall e, compute_features db ev = Raise e -> e = OverflowError \/ e = ValueError).
Proof.
  pose proof (compute_features_cases db ev) as Hc. cbv zeta in Hc.
  split; [|split].
  - intros Hlt.
    assert (E1 : (timestamp ev - timedelta 1 0 <? 0) = true)
      by (apply Z.ltb_lt; unfold timedelta; lia).
    now rewrite E1 in Hc.
  - intros Hge.
    assert (E1 : (timestamp ev - timedelta 1 0 <? 0) = false)
      by (apply Z.ltb_ge; unfold timedelta; lia).
    rewrite E1 in Hc. unfold last_event_before.
    destruct (hd_error (order_by_timestamp_desc _)) as [last|]; [|eauto].
    cbv zeta. rewrite haversine_km_by_a in Hc. cbv zeta in Hc.
    destruct (flt _ 0 || flt _ (-1) || flt 1 _); [exact Hc|].
    eexists. split; [exact Hc|]. cbn.
    now destruct (flt 0 (total_seconds _ _)).
  - intros e Hr. apply compute_features_Raise in Hr.
    destruct Hr as [[-> _] | [-> _]]; auto.
Qed.

Lemma total_amount_nonneg (l : list Event) :
  Forall (fun e => (0 <= amount e)%Q) l -> (0 <= total_amount l)%Q.
Proof.
  unfold total_amount. intros Hall.
  assert (Hacc : forall acc, (0 <= acc)%Q ->
            (0 <= fold_left (fun a e => (a + amount e)%Q) l acc)%Q).
  { induction Hall as [|e l He Hl IH]; intros acc Hacc; simpl; [exact Hacc|].
    apply IH. rewrite <- (Qplus_0_r 0). now apply Qplus_le_compat. }
  apply Hacc. apply Qle_refl.
Qed.

(** X6. The ranges of the feature vector: the counts lie between 0 and the
    number of the user's strictly earlier events, the hour and the weekday
    of a timestamp in the calendar lie in 0..23 and 0..6, a non-positive
    amount has log-amount 0, and the spend is non-negative when the stored
    amounts are. *)
Theorem compute_features_ranges (db : list Event) (ev : Event) (f : ComputedFeatures) :
  compute_features db ev = Ok f ->
  0 <= cf_tx_count_5m f
  /\ cf_tx_count_1h f <= Z.of_nat (length (filter (strictly_before ev) db))
  /\ 0 <= cf_hour_of_day f < 24
  /\ 0 <= cf_day_of_week f < 7
  /\ ((amount ev <= 0)%Q -> cf_log_amount f = 0%Q)
  /\ (Forall (fun e => (0 <= amount e)%Q) db -> (0 <= cf_spend_1h f)%Q).
Proof.
  intros Hf.
  pose proof (compute_features_windows _ _ _ Hf) as Hw.
  pose proof (compute_features_fields _ _ _ Hf) as Hfl.
  cbv zeta in Hw, Hfl.
  destruct Hw as (_ & H5 & H1 & Hs).
  destruct Hfl as (_ & _ & _ & _ & Hlog & Hh & Hd).
  split; [rewrite H5; lia|]. split.
  { rewrite H1. apply Nat2Z.inj_le, filter_length_mono. intros e.
    unfold in_window, strictly_before, by_user, ts_lt.
    rewrite !andb_true_iff. tauto. }
  split; [rewrite Hh; unfold datetime_hour; apply Z.mod_pos_bound; lia|].
  split; [rewrite Hd; unfold datetime_weekday; apply Z.mod_pos_bound; lia|].
  split.
  - intros Hle. rewrite Hlog.
    destruct (flt 0 (amount ev)) eqn:E; [|reflexivity].
    apply flt_iff in E. exfalso. exact (Qlt_not_le _ _ E Hle).
  - intros Hall. rewrite Hs. apply total_amount_nonneg.
    apply Forall_forall. intros e He. apply filter_In in He.
    rewrite Forall_forall in Hall. now apply Hall.
Qed.

End MoreFeatures.

(** ** reasons.py *)

(** The sorted list of line 45 is the list of the rules that fire, taken in
    the order of decreasing severity. *)
Lemma sorted_fired_reasons (db : list Event) (ev : Event) (fr : FeatureRow) :
  sorted_by_severity_desc (fired_reasons db ev fr)
  = map snd (filter fst (ranked_candidates db ev fr)).
Proof.
  unfold fired_reasons, ranked_candidates, append_if. simpl.
  case_rule_tests db ev fr; reflexivity.
Qed.

Lemma sorted_fired_reasons_strict (db : list Event) (ev : Event) (fr : FeatureRow) :
  StronglySorted (fun a b => severity a > severity b)
    (sorted_by_severity_desc (fired_reasons db ev fr))
  /\ NoDup (map reason (sorted_by_severity_desc (fired_reasons db ev fr))).
Proof.
  rewrite sorted_fired_reasons. unfold ranked_candidates. simpl.
  case_rule_tests db ev fr; simpl;
    (split;
     [ repeat (apply SSorted_cons || apply SSorted_nil || apply Forall_cons
               || apply Forall_nil); simpl; lia
     | repeat (apply NoDup_cons || apply NoDup_nil); simpl; intuition discriminate ]).
Qed.

(** X7. [build_reasons] in closed form: the first three of the rules that fire,
    in the order impossible_travel, high_velocity_5m, new_device, new_ip,
    amount_spike, high_spend_1h, new_merchant. *)
Theorem build_reasons_closed_form (db : list Event) (ev : Event) (fr : FeatureRow) :
  build_reasons db ev fr = firstn 3 (map snd (filter fst (ranked_candidates db ev fr))).
Proof.
  unfold build_reasons. cbv zeta. now rewrite sorted_fired_reasons.
Qed.

(** X8. The severities of the returned reasons are strictly decreasing and no
    rule is reported twice. *)
Theorem build_reasons_strictly_ranked (db : list Event) (ev : Event) (fr : FeatureRow) :
  StronglySorted (fun a b => severity a > severity b) (build_reasons db ev fr)
  /\ NoDup (map reason (build_reasons db ev fr)).
Proof.
  destruct (sorted_fired_reasons_strict db ev fr) as [Hsorted Hnodup].
  unfold build_reasons. cbv zeta. split.
  - now apply firstn_StronglySorted.
  - rewrite <- firstn_map.
    rewrite <- (firstn_skipn 3 (map reason _)) in Hnodup.
    now apply NoDup_app_remove_r in Hnodup.
Qed.

Lemma StronglySorted_app_inv {A : Type} (R : A -> A -> Prop) (l1 l2 : list A) :
  StronglySorted R (l1 ++ l2) ->
  StronglySorted R l1 /\ StronglySorted R l2
  /\ forall x y, In x l1 -> In y l2 -> R x y.
Proof.
  induction l1 as [|a l1 IH]; simpl; intros Hs.
  - repeat split; [constructor | exact Hs | contradiction].
  - apply StronglySorted_inv in Hs. destruct Hs as [Hs Ha].
    destruct (IH Hs) as (H1 & H2 & H12). rewrite Forall_forall in Ha.
    repeat split; auto.
    + constructor; [exact H1|]. apply Forall_forall. intros x Hx.
      apply Ha, in_or_app. now left.
    + intros x y [-> | Hx] Hy; [apply Ha, in_or_app; now right | now apply H12].
Qed.

(** X9. The cut to three keeps the most severe reasons: the result has
    [min 3 n] elements when [n] rules fire; it holds every fired reason when
    at most three fire; a fired reason that is left out is strictly less
    severe than every returned one; and the result is empty only when no
    rule fires. *)
Theorem build_reasons_keeps_most_severe (db : list Event) (ev : Event) (fr : FeatureRow) :
  length (build_reasons db ev fr) = Nat.min 3 (length (fired_reasons db ev fr))
  /\ ((length (fired_reasons db ev fr) <= 3)%nat ->
      Permutation (build_reasons db ev fr) (fired_reasons db ev fr))
  /\ (forall kept cut,
        In kept (build_reasons db ev fr) -> In cut (fired_reasons db ev fr) ->
        ~ In cut (build_reasons db ev fr) -> severity cut < severity kept)
  /\ (build_reasons db ev fr = [] <-> fired_reasons db ev fr = []).
Proof.
  pose proof (sort_by_perm (fun a b => severity b <=? severity a)
                (fired_reasons db ev fr)) as Hperm.
  fold (sorted_by_severity_desc (fired_reasons db ev fr)) in Hperm.
  destruct (sorted_fired_reasons_strict db ev fr) as [Hsorted _].
  unfold build_reasons. cbv zeta.
  set (sorted := sorted_by_severity_desc (fired_reasons db ev fr)) in *.
  assert (Hlen : length sorted = length (fired_reasons db ev fr))
    by now apply Permutation_length.
  split; [now rewrite length_firstn, Hlen|]. split; [|split].
  - intros Hle. rewrite firstn_all2 by lia. exact Hperm.
  - intros kept cut Hkept Hcut Hnot.
    apply (Permutation_in _ (Permutation_sym Hperm)) in Hcut.
    rewrite <- (firstn_skipn 3 sorted) in Hcut, Hsorted.
    apply in_app_or in Hcut. destruct Hcut as [Hcut | Hcut]; [contradiction|].
    destruct (StronglySorted_app_inv _ _ _ Hsorted) as (_ & _ & Hlt).
    specialize (Hlt kept cut Hkept Hcut). lia.
  - split.
    + intros Hnil. apply (f_equal (@length Reason)) in Hnil.
      rewrite length_firstn, Hlen in Hnil. simpl in Hnil.
      destruct (fired_reasons db ev fr); [reflexivity | simpl in Hnil; lia].
    + intros Hnil. rewrite Hnil in Hperm.
      apply Permutation_sym, Permutation_nil in Hperm. now rewrite Hperm.
Qed.

(** X10. The three most severe rules are reported whenever they fire: a speed of
    900 km/h or more puts impossible_travel first, and high_velocity_5m and
    new_device are never cut. *)
Theorem build_reasons_never_cuts_top_rules (db : list Event) (ev : Event) (fr : FeatureRow) :
  (fle 900 (speed_kmph fr) = true ->
   hd_error (build_reasons db ev fr)
   = Some {| reason := "impossible_travel"; detail := TravelSpeed (speed_kmph fr);
             severity := 95 |})
  /\ (3 <= tx_count_5m fr ->
      In {| reason := "high_velocity_5m"; detail := TransactionsIn5m (tx_count_5m fr);
            severity := 90 |} (build_reasons db ev fr))
  /\ (is_new_device fr = 1 ->
      In {| reason := "new_device"; detail := Text "Device not seen before for this user";
            severity := 85 |} (build_reasons db ev fr)).
Proof.
  unfold build_reasons. cbv zeta. rewrite sorted_fired_reasons. unfold ranked_candidates.
  rewrite <- (Z.leb_le 3), <- (Z.eqb_eq _ 1). simpl.
  case_rule_tests db ev fr; simpl; repeat split; intros Hc;
    solve [discriminate Hc | reflexivity | auto 6].
Qed.

Lemma split_at_nth {A : Type} (d : A) (l : list A) (k : nat) :
  (k < length l)%nat -> l = firstn k l ++ nth k l d :: skipn (S k) l.
Proof.
  revert k. induction l as [|x l IH]; intros k Hk; simpl in Hk; [lia|].
  destruct k as [|k]; [reflexivity|]. simpl. f_equal. apply IH. lia.
Qed.

(** X11. The median that the amount_spike rule uses is an order statistic of the
    sample: [n / 2] of the [n] values stand before it and are at most it,
    the others are at least it.  On an even number of values it is therefore
    the upper of the two middle values. *)
Theorem median_of_order_statistic (vals : list Q) :
  vals <> [] ->
  exists lo hi,
    Permutation vals (lo ++ median_of vals :: hi)
    /\ length lo = (length vals / 2)%nat
    /\ Forall (fun x => (x <= median_of vals)%Q) lo
    /\ Forall (fun x => (median_of vals <= x)%Q) hi.
Proof.
  intros Hne. unfold median_of. cbv zeta.
  pose proof (sort_by_perm fle vals) as Hperm.
  pose proof (sort_by_fle_sorted vals) as Hsorted.
  set (sorted := sort_by fle vals) in *.
  assert (Hlen : length sorted = length vals) by now apply Permutation_length.
  assert (Hk : (length sorted / 2 < length sorted)%nat).
  { apply Nat.div_lt; [|lia]. rewrite Hlen. destruct vals; [congruence | simpl; lia]. }
  pose proof (split_at_nth 0%Q sorted _ Hk) as Hsplit.
  set (k := (length sorted / 2)%nat) in *.
  exists (firstn k sorted), (skipn (S k) sorted).
  rewrite Hsplit in Hsorted.
  destruct (StronglySorted_app_inv _ _ _ Hsorted) as (_ & Hright & Hcross).
  apply StronglySorted_inv in Hright. destruct Hright as [_ Hhi].
  split; [|split; [|split]].
  - rewrite <- Hsplit. now apply Permutation_sym.
  - rewrite length_firstn, <- Hlen. unfold k. lia.
  - apply Forall_forall. intros x Hx. apply (Hcross x); [exact Hx | now left].
  - exact Hhi.
Qed.

Lemma prior_amounts_length (db : list Event) (ev : Event) :
  length (prior_amounts db ev) = Nat.min 30 (length (filter (strictly_before ev) db)).
Proof.
  unfold prior_amounts. rewrite filter_filter_fuse. fold (strictly_before ev).
  rewrite length_map, length_firstn.
  now rewrite (Permutation_length (order_by_timestamp_desc_perm _)).
Qed.

Lemma amount_spike_needs_ten (db : list Event) (ev : Event) :
  (length (filter (strictly_before ev) db) < 10)%nat -> amount_spike_fires db ev = false.
Proof.
  intros Hlt. unfold amount_spike_fires. cbv zeta. rewrite prior_amounts_length.
  destruct (10 <=? Nat.min 30 (length (filter (strictly_before ev) db)))%nat eqn:E;
    [|reflexivity].
  apply Nat.leb_le in E. lia.
Qed.

(** X12. The guards of the amount_spike rule.  The sample holds [min 30 n]
    amounts when the user has [n] strictly earlier events, and all of them
    when [n <= 30]; the rule does not fire for a user with fewer than 10
    strictly earlier events, nor for an amount that is not positive. *)
Theorem amount_spike_guards (db : list Event) (ev : Event) :
  length (prior_amounts db ev) = Nat.min 30 (length (filter (strictly_before ev) db))
  /\ ((length (filter (strictly_before ev) db) <= 30)%nat ->
      Permutation (prior_amounts db ev) (map amount (filter (strictly_before ev) db)))
  /\ ((length (filter (strictly_before ev) db) < 10)%nat ->
      amount_spike_fires db ev = false)
  /\ ((amount ev <= 0)%Q -> amount_spike_fires db ev = false).
Proof.
  assert (Hprior : prior_amounts db ev
                   = map amount (firstn 30 (order_by_timestamp_desc
                                              (filter (strictly_before ev) db)))).
  { unfold prior_amounts. now rewrite filter_filter_fuse. }
  pose proof (order_by_timestamp_desc_perm (filter (strictly_before ev) db)) as Hperm.
  split; [apply prior_amounts_length|]. split; [|split].
  - intros Hle. rewrite Hprior, firstn_all2.
    + now apply Permutation_map.
    + now rewrite (Permutation_length Hperm).
  - apply amount_spike_needs_ten.
  - intros Hle. destruct (amount_spike_fires db ev) eqn:E; [|reflexivity].
    apply amount_spike_fires_iff in E. destruct E as (_ & Hpos & Hfour).
    exfalso. apply (Qlt_not_le 0 (amount ev)); [|exact Hle].
    apply Qlt_le_trans with (4 * median_of (prior_amounts db ev))%Q; [|exact Hfour].
    apply Qmult_lt_0_compat; [reflexivity | exact Hpos].
Qed.

Section FirstEvent.

Context `{MathModule}.

(** X13. The first event of a user: nothing in either window, every novelty
    flag set, no distance and no speed; and its reasons are the three
    novelty rules, and only they, whatever the amount and the place. *)
Theorem first_event_features_and_reasons (db : list Event) (ev : Event)
  (f : ComputedFeatures) (k : Z) :
  filter (strictly_before ev) db = [] ->
  compute_features db ev = Ok f ->
  cf_tx_count_5m f = 0 /\ cf_tx_count_1h f = 0 /\ cf_spend_1h f = 0%Q
  /\ cf_is_new_merchant f = 1 /\ cf_is_new_device f = 1 /\ cf_is_new_ip f = 1
  /\ cf_distance_from_last_km f = 0%Q /\ cf_speed_kmph f = 0%Q
  /\ build_reasons db ev (new_feature_row ev f k)
     = [ {| reason := "new_device"; detail := Text "Device not seen before for this user";
            severity := 85 |};
         {| reason := "new_ip"; detail := Text "IP address not seen before for this user";
            severity := 80 |};
         {| reason := "new_merchant";
            detail := Text "Merchant not seen before for this user";
            severity := 65 |} ].
Proof.
  intros Hnone Hf.
  pose proof (amount_spike_needs_ten db ev) as Hfew.
  rewrite Hnone in Hfew. specialize (Hfew ltac:(simpl; lia)).
  pose proof Hf as Hf0.
  rewrite <- (compute_features_same_history db []) in Hf0 by (symmetry; exact Hnone).
  pose proof (compute_features_windows _ _ _ Hf0) as Hw.
  pose proof (compute_features_fields _ _ _ Hf0) as Hfl.
  cbv zeta in Hw, Hfl. simpl in Hw, Hfl.
  destruct Hw as (_ & H5 & H1 & Hs). destruct Hfl as (Hm & Hd & Hi & Hk & _).
  injection Hk as Hdist Hspeed.
  repeat (split; [assumption|]).
  unfold build_reasons. cbv zeta. rewrite sorted_fired_reasons.
  unfold ranked_candidates, new_feature_row. simpl.
  rewrite H5, Hs, Hm, Hd, Hi, Hspeed, Hfew. reflexivity.
Qed.

End FirstEvent.

(** ** scoring.py *)

Lemma risk_of_monotone (a1 a2 thr : Q) :
  (a1 <= a2)%Q -> (risk_of a1 thr <= risk_of a2 thr)%Q.
Proof.
  intros Hle. destruct (Qlt_le_dec 0 thr) as [Hpos | Hnp].
  - rewrite !(risk_of_clamped _ thr Hpos).
    apply Q.max_le_compat_l, Q.min_le_compat_l.
    unfold Qdiv. apply Qmult_le_compat_r.
    + apply Qmult_le_l; [reflexivity | exact Hle].
    + apply Qlt_le_weak, Qinv_lt_0_compat, Hpos.
  - rewrite !(risk_of_nonpositive_threshold _ thr Hnp). apply Qle_refl.
Qed.

(** X16. Under one model, a higher raw score never gives a lower risk and never
    clears the flag. *)
Theorem risk_and_flag_monotone (dir : ArtifactDir) (cached c1 c2 : Cache)
  (fv1 fv2 : list Q) (raw1 risk1 raw2 risk2 : Q) (flag1 flag2 : bool) :
  score_feature_vector dir cached fv1 = (c1, Ok (raw1, risk1, flag1)) ->
  score_feature_vector dir cached fv2 = (c2, Ok (raw2, risk2, flag2)) ->
  (raw1 <= raw2)%Q ->
  (risk1 <= risk2)%Q /\ (flag1 = true -> flag2 = true).
Proof.
  intros H1 H2 Hle.
  apply score_feature_vector_Ok in H1, H2.
  destruct H1 as (s1 & m1 & t1 & Hl1 & _ & _ & Ht1 & _ & -> & ->).
  destruct H2 as (s2 & m2 & t2 & Hl2 & _ & _ & Ht2 & _ & -> & ->).
  assert (c1 = c2) by congruence. subst c2.
  assert (t1 = t2) by congruence. subst t2.
  split; [now apply risk_of_monotone|].
  rewrite !fle_iff. intros Hf. now apply Qle_trans with raw1.
Qed.



(** ** main.py: the tables *)

Lemma NoDup_snoc {A : Type} (l : list A) (x : A) :
  NoDup l -> ~ In x l -> NoDup (l ++ [x]).
Proof.
  intros Hl Hx. apply NoDup_app; [exact Hl | repeat constructor; intros [] |].
  intros a Ha [<-|[]]. auto.
Qed.

Lemma NoDup_map_eq {A B : Type} (g : A -> B) (l : list A) (x y : A) :
  NoDup (map g l) -> In x l -> In y l -> g x = g y -> x = y.
Proof.
  induction l as [|a l IH]; simpl; [contradiction|].
  intros Hnd Hx Hy Hg. inversion Hnd as [|? ? Hna Hnd']; subst.
  destruct Hx as [->|Hx], Hy as [->|Hy]; auto.
  - exfalso. apply Hna. rewrite Hg. now apply in_map.
  - exfalso. apply Hna. rewrite <- Hg. now apply in_map.
Qed.

Lemma map_update_first {A B : Type} (g : A -> B) (p : A -> bool) (f : A -> A) (l : list A) :
  (forall x, g (f x) = g x) -> map g (update_first p f l) = map g l.
Proof.
  intros Hg. induction l as [|x l IH]; simpl; [reflexivity|].
  destruct (p x); simpl; [now rewrite Hg | now rewrite IH].
Qed.

Section Tables.
Context `{MathModule} `{Dateutil}.

(** What a call of [upsert_event_and_features] leaves, by the place where
    it returns or raises. *)
Lemma upsert_event_and_features_cases (db : Database) (req : IngestEventRequest) :
  (exists existing,
     find_event db (req_event_id req) = Some existing
     /\ upsert_event_and_features db req
        = (db, match find_features db (id existing) with
               | Some fr => Ok (existing, fr)
               | None => Raise features_missing
               end))
  \/ (find_event db (req_event_id req) = None
      /\ parse_timestamp (req_timestamp req) = None
      /\ upsert_event_and_features db req
         = (db, Raise (HTTPException 400 "invalid timestamp format")))
  \/ (exists ts,
        find_event db (req_event_id req) = None
        /\ parse_timestamp (req_timestamp req) = Some ts
        /\ let ev := new_event req ts (next_id (map id (events db))) in
           let db1 := {| events := events db ++ [ev];
                         features := features db; scores := scores db |} in
           match compute_features (events db ++ [ev]) ev with
           | Raise e =>
               (e = OverflowError /\ ts < 3600000000
                \/ e = ValueError /\ 3600000000 <= ts)
               /\ upsert_event_and_features db req = (db1, Raise e)
           | Ok feats =>
               let fr := new_feature_row ev feats (next_id (map fr_id (features db))) in
               upsert_event_and_features db req
               = ({| events := events db ++ [ev];
                     features := features db ++ [fr]; scores := scores db |},
                  Ok (ev, fr))
           end).
Proof.
  unfold upsert_event_and_features.
  destruct (find_event db (req_event_id req)) as [existing|] eqn:He.
  - left. exists existing. split; [reflexivity|].
    now destruct (find_features db (id existing)).
  - right. destruct (parse_timestamp (req_timestamp req)) as [ts|] eqn:Hts.
    + right. exists ts. split; [reflexivity|]. split; [reflexivity|].
      cbv zeta. unfold add_event, add_features. cbn [events features scores].
      destruct (compute_features _ _) as [feats|e] eqn:Hcf; [reflexivity|].
      apply compute_features_Raise in Hcf.
      split; [|reflexivity]. destruct Hcf as [[-> Hlt] | (-> & Hge & _)]; auto.
    + left. now repeat split.
Qed.

Lemma find_event_None_fresh (db : Database) (x : string) :
  find_event db x = None -> ~ In x (map event_id (events db)).
Proof.
  unfold find_event. rewrite hd_error_filter_None_iff. intros Hn Hin.
  apply in_map_iff in Hin. destruct Hin as (e & <- & Hin).
  specialize (Hn e Hin). now rewrite String.eqb_refl in Hn.
Qed.

Lemma find_score_None_fresh (db : Database) (k : Z) :
  find_score db k = None -> ~ In k (map sr_event_id_fk (scores db)).
Proof.
  unfold find_score. rewrite hd_error_filter_None_iff. intros Hn Hin.
  apply in_map_iff in Hin. destruct Hin as (sr & <- & Hin).
  specialize (Hn sr Hin). now rewrite Z.eqb_refl in Hn.
Qed.

Lemma upsert_event_and_features_keeps_keys (db : Database) (req : IngestEventRequest) :
  features_reference_events db -> keys_unique db ->
  keys_unique (fst (upsert_event_and_features db req)).
Proof.
  intros Hwf Hk.
  destruct (upsert_event_and_features_cases db req)
    as [(existing & _ & ->) | [(_ & _ & ->) | (ts & He & _ & Hc)]]; try exact Hk.
  cbv zeta in Hc. destruct Hk as (K1 & K2 & K3 & K4 & K5 & K6).
  assert (E1 : NoDup (map id (events db ++
                 [new_event req ts (next_id (map id (events db)))]))).
  { rewrite map_app. apply NoDup_snoc; [exact K1 | apply next_id_not_In]. }
  assert (E2 : NoDup (map event_id (events db ++
                 [new_event req ts (next_id (map id (events db)))]))).
  { rewrite map_app. apply NoDup_snoc; [exact K2 |]. now apply find_event_None_fresh. }
  destruct (compute_features _ _) as [feats|e].
  - rewrite Hc. unfold keys_unique. cbn [fst events features scores].
    repeat split; try assumption.
    + rewrite map_app. apply NoDup_snoc; [exact K3 | apply next_id_not_In].
    + rewrite map_app. apply NoDup_snoc; [exact K4 |].
      now apply next_event_has_no_features.
  - destruct Hc as (_ & ->). unfold keys_unique. cbn [fst events features scores].
    now repeat split.
Qed.

Lemma upsert_score_row_keeps_keys (db : Database) (ev : Event) (a r : Q) (f : bool)
  (reasons : list Reason) (utcnow : datetime) :
  keys_unique db -> keys_unique (upsert_score_row db ev a r f reasons utcnow).
Proof.
  intros (K1 & K2 & K3 & K4 & K5 & K6). unfold upsert_score_row, keys_unique.
  destruct (find_score db (id ev)) eqn:Hs; cbn [events features scores].
  - rewrite !map_update_first by reflexivity. now repeat split.
  - repeat split; try assumption.
    + rewrite map_app. apply NoDup_snoc; [exact K5 | apply next_id_not_In].
    + rewrite map_app. apply NoDup_snoc; [exact K6 |]. now apply find_score_None_fresh.
Qed.

(** X19. The handlers keep the uniqueness that [models.py] declares, so that a
    sequence of requests never runs into a constraint of the tables: in every
    database that [upsert_event_and_features] and [upsert_score_row] build
    from the empty one, the primary keys are pairwise distinct, no two events
    share an [event_id], and an event has at most one feature row and at most
    one score row. *)
Theorem reachable_db_keys_unique (db : Database) :
  reachable_db db ->
  keys_unique db
  /\ (forall ev fr fr', In fr (features db) -> In fr' (features db) ->
        event_id_fk fr = id ev -> event_id_fk fr' = id ev -> fr = fr')
  /\ (forall ev sr sr', In sr (scores db) -> In sr' (scores db) ->
        sr_event_id_fk sr = id ev -> sr_event_id_fk sr' = id ev -> sr = sr').
Proof.
  intros Hr.
  assert (Hk : keys_unique db).
  { induction Hr as [|db req Hr IH|db ev a r f reasons utcnow Hr IH].
    - unfold keys_unique. simpl. repeat split; constructor.
    - apply upsert_event_and_features_keeps_keys; [|exact IH].
      now apply reachable_db_references.
    - now apply upsert_score_row_keeps_keys. }
  split; [exact Hk|]. destruct Hk as (_ & _ & _ & K4 & _ & K6).
  split.
  - intros ev fr fr' Hin Hin' Hfk Hfk'.
    apply (NoDup_map_eq event_id_fk (features db)); congruence || assumption.
  - intros ev sr sr' Hin Hin' Hfk Hfk'.
    apply (NoDup_map_eq sr_event_id_fk (scores db)); congruence || assumption.
Qed.

End Tables.

(** ** main.py: the requests *)

Lemma update_first_compose {A : Type} (p : A -> bool) (f g : A -> A) (l : list A) :
  (forall x, p x = true -> p (f x) = true) ->
  update_first p g (update_first p f l) = update_first p (fun x => g (f x)) l.
Proof.
  intros Hp. induction l as [|x l IH]; simpl; [reflexivity|].
  destruct (p x) eqn:E; simpl.
  - now rewrite (Hp x E).
  - now rewrite E, IH.
Qed.

Lemma update_first_snoc {A : Type} (p : A -> bool) (f : A -> A) (l : list A) (x : A) :
  hd_error (filter p l) = None -> p x = true ->
  update_first p f (l ++ [x]) = l ++ [f x].
Proof.
  rewrite hd_error_filter_None_iff. intros Hn Hx.
  induction l as [|y l IH]; simpl; [now rewrite Hx|].
  rewrite (Hn y (or_introl eq_refl)), IH; [reflexivity|].
  intros z Hz. apply Hn. now right.
Qed.

Lemma filter_update_first_other {A : Type} (p q : A -> bool) (f : A -> A) (l : list A) :
  (forall x, p x = true -> q x = false /\ q (f x) = false) ->
  filter q (update_first p f l) = filter q l.
Proof.
  intros Hpq. induction l as [|x l IH]; simpl; [reflexivity|].
  destruct (p x) eqn:E; simpl.
  - destruct (Hpq x E) as [-> ->]. reflexivity.
  - now rewrite IH.
Qed.

Lemma update_first_length {A : Type} (p : A -> bool) (f : A -> A) (l : list A) :
  length (update_first p f l) = length l.
Proof.
  induction l as [|x l IH]; simpl; [reflexivity|].
  destruct (p x); simpl; [reflexivity | now rewrite IH].
Qed.

Lemma upsert_score_row_length (db : Database) (ev : Event) (a r : Q) (f : bool)
  (reasons : list Reason) (utcnow : datetime) :
  length (scores (upsert_score_row db ev a r f reasons utcnow))
  = (length (scores db) + (if is_None (find_score db (id ev)) then 1 else 0))%nat.
Proof.
  unfold upsert_score_row. destruct (find_score db (id ev)); cbn [scores is_None].
  - rewrite update_first_length. lia.
  - rewrite length_app. simpl. lia.
Qed.

(** X20. [upsert_score_row] keeps one row per event and the last write wins.
    Writing twice for an event leaves the database that the second write
    alone would have left, the row's key and position included; the row of
    another event is what it was; and the table grows by one row exactly when
    the event had none. *)
Theorem upsert_score_row_last_write_wins (db : Database) (ev : Event)
  (a1 r1 : Q) (f1 : bool) (reasons1 : list Reason) (t1 : datetime)
  (a2 r2 : Q) (f2 : bool) (reasons2 : list Reason) (t2 : datetime) :
  upsert_score_row (upsert_score_row db ev a1 r1 f1 reasons1 t1) ev a2 r2 f2 reasons2 t2
  = upsert_score_row db ev a2 r2 f2 reasons2 t2
  /\ (forall k, k <> id ev ->
        find_score (upsert_score_row db ev a1 r1 f1 reasons1 t1) k = find_score db k)
  /\ length (scores (upsert_score_row db ev a1 r1 f1 reasons1 t1))
     = (length (scores db) + (if is_None (find_score db (id ev)) then 1 else 0))%nat.
Proof.
  split; [|split].
  - destruct (upsert_score_row_stored db ev a1 r1 f1 reasons1 t1) as (sr & Hsr & _).
    unfold upsert_score_row at 1. rewrite Hsr.
    unfold upsert_score_row. destruct (find_score db (id ev)) as [sr0|] eqn:Hs;
      cbn [events features scores]; f_equal.
    + rewrite update_first_compose; [reflexivity|]. intros x Hx. exact Hx.
    + rewrite update_first_snoc; [reflexivity | exact Hs | apply Z.eqb_refl].
  - intros k Hk. unfold upsert_score_row, find_score.
    destruct (hd_error (filter _ (scores db))) eqn:Hs; cbn [scores].
    + f_equal. apply filter_update_first_other. intros x Hx. cbn [sr_event_id_fk].
      apply Z.eqb_eq in Hx. rewrite Hx. split; apply Z.eqb_neq; congruence.
    + rewrite filter_app. simpl.
      replace (id ev =? k) with false by (symmetry; apply Z.eqb_neq; congruence).
      now rewrite app_nil_r.
  - apply upsert_score_row_length.
Qed.

Section Requests.
Context `{MathModule} `{Dateutil}.


(** X22. [POST /score] is [POST /ingest] followed by [POST /score-by-event-id]
    on the same [event_id]: when the ingestion raises, scoring raises the
    same exception and leaves the same state, and otherwise the response and
    the state are those of scoring the stored event by its identifier. *)
Theorem score_is_ingest_then_score_by_event_id (app : App) (req : IngestEventRequest)
  (utcnow : datetime) :
  features_reference_events (app_db app) ->
  score app req utcnow
  = match ingest app req with
    | (app1, Raise e) => (app1, Raise e)
    | (app1, Ok _) => score_by_event_id app1 (req_event_id req) utcnow
    end.
Proof.
  intros Hwf. unfold score, ingest.
  destruct (upsert_event_and_features (app_db app) req) as [db' [[ev fr]|e]] eqn:Hup;
    [|reflexivity].
  destruct (upsert_event_and_features_stored _ _ _ _ _ Hwf Hup) as [He Hf].
  unfold score_by_event_id. cbn [with_db app_db]. now rewrite He, Hf.
Qed.

Lemma load_artifacts_loaded (dir : ArtifactDir) (cached cached' : Cache) :
  load_artifacts dir cached = Ok cached' ->
  forall dir', load_artifacts dir' cached' = Ok cached'.
Proof.
  unfold load_artifacts. destruct (c_model cached) as [m|] eqn:Hm; simpl.
  - intros [= <-] dir'. now rewrite Hm.
  - destruct (model_joblib dir), (scaler_joblib dir), (threshold_json dir);
      try discriminate.
    now intros [= <-] dir'.
Qed.

(** A scoring that has returned can be repeated against the cache it left,
    over any table with the same events, with the same response. *)
Lemma score_stored_again (app app1 : App) (ev : Event) (fr : FeatureRow)
  (utcnow : datetime) (resp : ScoreResponse) :
  score_stored app ev fr utcnow = (app1, Ok resp) ->
  app_artifacts app1 = app_artifacts app
  /\ events (app_db app1) = events (app_db app)
  /\ features (app_db app1) = features (app_db app)
  /\ (exists sr, find_score (app_db app1) (id ev) = Some sr)
  /\ forall (app0 : App) (utcnow' : datetime),
       app_cached app0 = app_cached app1 ->
       events (app_db app0) = events (app_db app) ->
       score_stored app0 ev fr utcnow'
       = (with_db app0
            (upsert_score_row (app_db app0) ev (resp_anomaly_score resp)
               (resp_risk_score resp) (resp_flagged resp) (resp_reasons resp) utcnow'),
          Ok resp).
Proof.
  destruct app as [db dir cached]. unfold score_stored, feature_columns.
  cbn [app_db app_artifacts app_cached].
  destruct (load_artifacts dir cached) as [cached'|e] eqn:Hl; [|discriminate].
  pose proof (load_artifacts_loaded _ _ _ Hl) as Hll.
  destruct (c_feature_columns cached') as [cols|] eqn:Hcols; [|discriminate].
  unfold score_with_columns, score_feature_vector, with_cached.
  cbn [app_db app_artifacts app_cached].
  destruct (feature_values_of fr cols) as [vals|e] eqn:Hvals; [|discriminate].
  rewrite (Hll dir).
  destruct (c_scaler cached') as [scaler|] eqn:Hsc; [|discriminate].
  destruct (c_model cached') as [model|] eqn:Hmo; [|discriminate].
  destruct (c_threshold cached') as [thr|] eqn:Hth; [|discriminate].
  intros [= <- <-]. cbn [with_db app_db app_artifacts app_cached
                          resp_anomaly_score resp_risk_score resp_flagged resp_reasons].
  split; [reflexivity|].
  split; [apply upsert_score_row_tables|]. split; [apply upsert_score_row_tables|].
  split.
  { destruct (upsert_score_row_stored db ev (- score_samples model (transform scaler vals))
                (risk_of (- score_samples model (transform scaler vals)) thr)
                (fle thr (- score_samples model (transform scaler vals)))
                (build_reasons (events db) ev fr) utcnow) as (sr & Hsr & _).
    now exists sr. }
  intros [db0 dir0 cached0] utcnow' Hc He. cbn [app_db app_artifacts app_cached] in *.
  subst cached0. rewrite (Hll dir0), Hcols, Hvals, (Hll dir0), Hsc, Hmo, Hth, He.
  reflexivity.
Qed.

(** X23. Scoring an event again gives the same response.  After a [POST /score]
    that returned, a further [POST /score] with the same [event_id], whatever
    its other fields, and a [POST /score-by-event-id] of it both return the
    response of the first call, computed from the stored event, the stored
    feature row and the cached model; they add no row to any table and
    rewrite the one score row of the event. *)
Theorem score_again_same_response (app app1 : App) (req req' : IngestEventRequest)
  (utcnow utcnow' : datetime) (resp : ScoreResponse) :
  features_reference_events (app_db app) ->
  score app req utcnow = (app1, Ok resp) ->
  req_event_id req' = req_event_id req ->
  exists app2,
    score app1 req' utcnow' = (app2, Ok resp)
    /\ score_by_event_id app1 (req_event_id req) utcnow' = (app2, Ok resp)
    /\ events (app_db app2) = events (app_db app1)
    /\ features (app_db app2) = features (app_db app1)
    /\ length (scores (app_db app2)) = length (scores (app_db app1))
    /\ app_cached app2 = app_cached app1.
Proof.
  intros Hwf Hscore Hid. unfold score in Hscore.
  destruct (upsert_event_and_features (app_db app) req) as [db1 [[ev fr]|e]] eqn:Hup;
    [|discriminate].
  destruct (upsert_event_and_features_stored _ _ _ _ _ Hwf Hup) as [He Hf].
  destruct (score_stored_again _ _ _ _ _ _ Hscore) as (Hdir & Hev & Hfr & [sr Hsr] & Hagain).
  cbn [with_db app_db app_artifacts] in Hdir, Hev, Hfr, Hagain.
  assert (He1 : find_event (app_db app1) (req_event_id req) = Some ev)
    by (unfold find_event in *; now rewrite Hev).
  assert (Hf1 : find_features (app_db app1) (id ev) = Some fr)
    by (unfold find_features in *; now rewrite Hfr).
  specialize (Hagain app1 utcnow' eq_refl Hev).
  eexists. split; [|split; [|split; [|split; [|split]]]].
  - unfold score, upsert_event_and_features. rewrite Hid, He1, Hf1.
    replace (with_db app1 (app_db app1)) with app1 by now destruct app1.
    exact Hagain.
  - unfold score_by_event_id. rewrite He1, Hf1. exact Hagain.
  - apply upsert_score_row_tables.
  - apply upsert_score_row_tables.
  - cbn [with_db app_db]. rewrite upsert_score_row_length, Hsr. simpl. lia.
  - reflexivity.
Qed.

Lemma hd_error_filter_app_old {A : Type} (p : A -> bool) (l l' : list A) (x : A) :
  hd_error (filter p l) = Some x -> hd_error (filter p (l ++ l')) = Some x.
Proof.
  rewrite filter_app. destruct (filter p l); simpl; [discriminate | auto].
Qed.

Lemma upsert_event_and_features_appends (db : Database) (req : IngestEventRequest) :
  exists evs frs,
    events (fst (upsert_event_and_features db req)) = events db ++ evs
    /\ features (fst (upsert_event_and_features db req)) = features db ++ frs.
Proof.
  destruct (upsert_event_and_features_cases db req)
    as [(existing & _ & ->) | [(_ & _ & ->) | (ts & _ & _ & Hc)]].
  - exists [], []. simpl. now rewrite !app_nil_r.
  - exists [], []. simpl. now rewrite !app_nil_r.
  - cbv zeta in Hc. destruct (compute_features _ _) as [feats|e].
    + rewrite Hc. simpl. eauto.
    + destruct Hc as (_ & ->). cbn [fst events features].
      eexists. exists []. split; [reflexivity | now rewrite app_nil_r].
Qed.

(** X24. Stored rows are never rewritten.  Once an [event_id] has its event and
    its feature row, every later state of the database, whatever requests
    made it, gives the same two rows for it: [upsert_event_and_features]
    returns them and changes nothing, so the features of an event are those
    computed when it was first received, also after events with earlier
    timestamps have arrived. *)
Theorem stored_rows_are_stable (db db' : Database) (req : IngestEventRequest)
  (ev : Event) (fr : FeatureRow) :
  find_event db (req_event_id req) = Some ev ->
  find_features db (id ev) = Some fr ->
  later_db db db' ->
  find_event db' (req_event_id req) = Some ev
  /\ find_features db' (id ev) = Some fr
  /\ upsert_event_and_features db' req = (db', Ok (ev, fr)).
Proof.
  intros He Hf Hlater.
  assert (Hinv : find_event db' (req_event_id req) = Some ev
                 /\ find_features db' (id ev) = Some fr).
  { induction Hlater as [|db' req' Hlater IH|db' ev' a r f reasons utcnow Hlater IH].
    - auto.
    - destruct IH as [He' Hf'].
      destruct (upsert_event_and_features_appends db' req') as (evs & frs & Hevs & Hfrs).
      unfold find_event, find_features in *. rewrite Hevs, Hfrs.
      split; now apply hd_error_filter_app_old.
    - destruct IH as [He' Hf'].
      destruct (upsert_score_row_tables db' ev' a r f reasons utcnow) as [Hevs Hfrs].
      unfold find_event, find_features in *. now rewrite Hevs, Hfrs. }
  destruct Hinv as [He' Hf']. split; [exact He'|]. split; [exact Hf'|].
  unfold upsert_event_and_features. now rewrite He', Hf'.
Qed.


End Requests.

(** * The further properties at concrete inputs *)

Lemma identity_odd_and_compatible : odd_and_compatible (fun x : Q => x).
Proof. split; [intros x y Hxy; exact Hxy | intros x; reflexivity]. Qed.

Lemma constant_zero_odd_and_compatible : odd_and_compatible (fun _ : Q => 0%Q).
Proof. split; intros; reflexivity. Qed.

(** The functions of [example_math] have the identities the two theorems
    on [haversine_km] ask of [math.radians], [math.sin], [math.sqrt] and
    [math.asin]. *)
Lemma haversine_km_self_witness :
  exists d, @haversine_km example_math 41 (-87) 41 (-87) = Ok d /\ (d == 0)%Q.
Proof.
  apply (@haversine_km_self example_math 41 (-87)).
  - exact identity_odd_and_compatible.
  - exact constant_zero_odd_and_compatible.
  - intros x y Hxy. exact Hxy.
  - intros x y Hxy. exact Hxy.
  - reflexivity.
  - reflexivity.
Defined.

Lemma haversine_km_symmetric_witness :
  same_outcome (@haversine_km example_math 41 (-87) 40 (-74))
    (@haversine_km example_math 40 (-74) 41 (-87)).
Proof.
  apply (@haversine_km_symmetric example_math 41 (-87) 40 (-74)).
  - exact identity_odd_and_compatible.
  - exact constant_zero_odd_and_compatible.
  - intros x y Hxy. exact Hxy.
  - intros x y Hxy. exact Hxy.
Defined.

Lemma computed_e_returned :
  @compute_features example_math (events db_history) event_e = Ok computed_e.
Proof. vm_compute. reflexivity. Qed.

(** [event_e] follows [event_p] of the same user, merchant, device and
    address: no novelty flag is set. *)
Lemma compute_features_novelty_witness :
  (cf_is_new_merchant computed_e = 0 \/ cf_is_new_merchant computed_e = 1)
  /\ (cf_is_new_device computed_e = 0 \/ cf_is_new_device computed_e = 1)
  /\ (cf_is_new_ip computed_e = 0 \/ cf_is_new_ip computed_e = 1)
  /\ (cf_is_new_merchant computed_e = 0
      <-> exists e, In e (events db_history) /\ strictly_before event_e e = true
                    /\ merchant_id e = merchant_id event_e)
  /\ (cf_is_new_device computed_e = 0
      <-> exists e, In e (events db_history) /\ strictly_before event_e e = true
                    /\ device_id e = device_id event_e)
  /\ (cf_is_new_ip computed_e = 0
      <-> exists e, In e (events db_history) /\ strictly_before event_e e = true
                    /\ ip e = ip event_e).
Proof.
  exact (@compute_features_novelty example_math (events db_history) event_e computed_e
           computed_e_returned).
Defined.

(** The last event before [event_e] is [event_p], ten minutes (600 seconds)
    earlier at the same place. *)
Lemma compute_features_kinematics_witness :
  last_event_before (events db_history) event_e = Some event_p
  /\ (exists earlier later,
        filter (strictly_before event_e) (events db_history)
        = earlier ++ event_p :: later
        /\ Forall (fun e => timestamp e <= timestamp event_p) earlier
        /\ Forall (fun e => timestamp e < timestamp event_p) later)
  /\ (0 < total_seconds (timestamp event_e) (timestamp event_p))%Q
  /\ @haversine_km example_math (lat event_p) (lon event_p) (lat event_e) (lon event_e)
     = Ok (cf_distance_from_last_km computed_e)
  /\ cf_speed_kmph computed_e
     = (cf_distance_from_last_km computed_e
        / (total_seconds (timestamp event_e) (timestamp event_p) / 3600))%Q.
Proof.
  split; [vm_compute; reflexivity|].
  pose proof (@compute_features_kinematics example_math (events db_history) event_e
                computed_e computed_e_returned) as Hk.
  replace (last_event_before (events db_history) event_e) with (Some event_p) in Hk
    by (vm_compute; reflexivity).
  exact Hk.
Defined.

Lemma compute_features_ranges_witness :
  0 <= cf_tx_count_5m computed_e
  /\ cf_tx_count_1h computed_e
     <= Z.of_nat (length (filter (strictly_before event_e) (events db_history)))
  /\ 0 <= cf_hour_of_day computed_e < 24
  /\ 0 <= cf_day_of_week computed_e < 7
  /\ ((amount event_e <= 0)%Q -> cf_log_amount computed_e = 0%Q)
  /\ (Forall (fun e => (0 <= amount e)%Q) (events db_history) ->
      (0 <= cf_spend_1h computed_e)%Q).
Proof.
  exact (@compute_features_ranges example_math (events db_history) event_e computed_e
           computed_e_returned).
Defined.

(** The median of 3, 1, 2 is 2: one value below it, one above. *)
Lemma median_of_order_statistic_witness :
  median_of [3; 1; 2]%Q = 2%Q
  /\ exists lo hi,
       Permutation [3; 1; 2]%Q (lo ++ median_of [3; 1; 2]%Q :: hi)
       /\ length lo = (length [3; 1; 2]%Q / 2)%nat
       /\ Forall (fun x => (x <= median_of [3; 1; 2]%Q)%Q) lo
       /\ Forall (fun x => (median_of [3; 1; 2]%Q <= x)%Q) hi.
Proof.
  split; [reflexivity|].
  apply (median_of_order_statistic [3; 1; 2]%Q). discriminate.
Defined.

(** The first ingestion into an empty database. *)
Lemma first_event_features_and_reasons_witness :
  cf_tx_count_5m computed_e1 = 0 /\ cf_tx_count_1h computed_e1 = 0
  /\ cf_spend_1h computed_e1 = 0%Q
  /\ cf_is_new_merchant computed_e1 = 1 /\ cf_is_new_device computed_e1 = 1
  /\ cf_is_new_ip computed_e1 = 1
  /\ cf_distance_from_last_km computed_e1 = 0%Q /\ cf_speed_kmph computed_e1 = 0%Q
  /\ build_reasons (events db_e1) event_e1 (new_feature_row event_e1 computed_e1 1)
     = resp_reasons response_e1.
Proof.
  apply (@first_event_features_and_reasons example_math (events db_e1) event_e1
           computed_e1 1).
  - reflexivity.
  - reflexivity.
Defined.

(** Threshold 2, raw scores 1 and 2: risks 50 and 100, the second flagged. *)
Lemma risk_and_flag_monotone_witness :
  (100 # 2 <= 200 # 2)%Q /\ (false = true -> true = true).
Proof.
  apply (risk_and_flag_monotone (dir_of (version_raw 2)) (cache_of (version_raw 2))
           (cache_of (version_raw 2)) (cache_of (version_raw 2)) [1%Q] [2%Q]
           1%Q (100 # 2) 2%Q (200 # 2) false true).
  - reflexivity.
  - reflexivity.
  - discriminate.
Defined.

(** The database after the first ingestion. *)
Lemma reachable_db_keys_unique_witness :
  @reachable_db example_math example_dateutil db_e1 /\ keys_unique db_e1.
Proof.
  assert (Hr : @reachable_db example_math example_dateutil db_e1)
    by exact (@reachable_upsert example_math example_dateutil empty_db request_e1
                (@reachable_empty example_math example_dateutil)).
  split; [exact Hr|].
  exact (proj1 (@reachable_db_keys_unique example_math example_dateutil db_e1 Hr)).
Defined.


(** [request_e1] on a service with an empty database and [version_1]
    cached. *)
Lemma score_is_ingest_then_score_by_event_id_witness :
  @score example_math example_dateutil app_empty_v1 request_e1 0
  = match @ingest example_math example_dateutil app_empty_v1 request_e1 with
    | (app1, Raise e) => (app1, Raise e)
    | (app1, Ok _) => score_by_event_id app1 (req_event_id request_e1) 0
    end.
Proof.
  apply (@score_is_ingest_then_score_by_event_id example_math example_dateutil
           app_empty_v1 request_e1 0).
  exact features_reference_events_empty.
Defined.

(** The same service: a second request for "e1", with every other field
    changed, is answered as the first. *)
Lemma score_again_same_response_witness :
  snd (@score example_math example_dateutil app_empty_v1 request_e1 0) = Ok response_e1
  /\ exists app2,
       @score example_math example_dateutil
         (fst (@score example_math example_dateutil app_empty_v1 request_e1 0))
         (example_request "e1" "u2" 999 "yesterday") 5
       = (app2, Ok response_e1)
       /\ score_by_event_id
            (fst (@score example_math example_dateutil app_empty_v1 request_e1 0))
            (req_event_id request_e1) 5
          = (app2, Ok response_e1)
       /\ events (app_db app2)
          = events (app_db (fst (@score example_math example_dateutil app_empty_v1
                                   request_e1 0)))
       /\ features (app_db app2)
          = features (app_db (fst (@score example_math example_dateutil app_empty_v1
                                     request_e1 0)))
       /\ length (scores (app_db app2))
          = length (scores (app_db (fst (@score example_math example_dateutil app_empty_v1
                                           request_e1 0))))
       /\ app_cached app2
          = app_cached (fst (@score example_math example_dateutil app_empty_v1
                               request_e1 0)).
Proof.
  split; [reflexivity|].
  apply (@score_again_same_response example_math example_dateutil app_empty_v1
           (fst (@score example_math example_dateutil app_empty_v1 request_e1 0))
           request_e1 (example_request "e1" "u2" 999 "yesterday") 0 5 response_e1).
  - exact features_reference_events_empty.
  - reflexivity.
  - reflexivity.
Defined.

(** The rows of "e1" after a further event has been ingested. *)
Lemma stored_rows_are_stable_witness :
  let db' := fst (@upsert_event_and_features example_math example_dateutil db_e1
                    (example_request "e2" "u1" 30 "0001-01-01T02:10:00")) in
  length (events db') = 2%nat
  /\ find_event db' (req_event_id request_e1) = Some event_e1
  /\ find_features db' (id event_e1) = Some features_e1
  /\ @upsert_event_and_features example_math example_dateutil db' request_e1
     = (db', Ok (event_e1, features_e1)).
Proof.
  cbv zeta. split; [reflexivity|].
  apply (@stored_rows_are_stable example_math example_dateutil db_e1 _ request_e1
           event_e1 features_e1).
  - reflexivity.
  - reflexivity.
  - apply later_upsert, later_now.
Defined.


